(** * GenAIAnalyticsDashboard: the query session, the suggestion scorer,
      the insight rules and the mock synthesizer

    A shallow embedding of [src/GenAIAnalyticsDashboard.js].  The reducer
    [queryReducer] and the handlers of the component are pure state
    transformers here; the chart rendering, the click-outside listener
    and the selection of a suggestion (a call of [handleQueryChange])
    are left out.  JavaScript values are modelled as follows:

    - a string is a [string] whose characters are the code units
      0..255 (Latin-1);
    - a Number is an IEEE 754 binary64 value, [spec_float] at precision
      53 and maximal exponent 1024, with a single NaN;
    - [null] is [None];
    - the clock read by [new Date().toLocaleString()] is an argument
      [now] of the reducer;
    - a [setTimeout] callback is an entry of a FIFO queue of pending
      payloads (all callbacks have the same delay). *)

From Stdlib Require Import ZArith List String Ascii Bool Lia.
From Stdlib Require Import SpecFloat DecimalString.
From Stdlib Require Import Permutation Sorted.
Import ListNotations.

Local Open Scope string_scope.
Local Open Scope Z_scope.

(** ** JavaScript built-ins used by the component *)

Module JS.

(** *** Numbers *)

Definition Number := spec_float.

Definition prec : Z := 53.
Definition emax : Z := 1024.

Definition NaN : Number := S754_nan.

Definition add : Number -> Number -> Number := SFadd prec emax.
Definition sub : Number -> Number -> Number := SFsub prec emax.
Definition mul : Number -> Number -> Number := SFmul prec emax.
Definition div : Number -> Number -> Number := SFdiv prec emax.
Definition abs : Number -> Number := SFabs.

(** [x > y]: false as soon as one side is NaN. *)
Definition gt (x y : Number) : bool := SFltb y x.

(** The Number nearest to the non-negative rational [p / q], ties to
    even, with sign [sx]. *)
Definition round_ratio (sx : bool) (p q : Z) : Number :=
  if p =? 0 then S754_zero sx
  else
    let k := Z.max 0 (Zdigits2 q - Zdigits2 p + 64) in
    let '(m, r) := Z.div_eucl (Z.shiftl p k) q in
    binary_round_aux prec emax sx m (- k) (new_location q r).

(** A numeric literal with an integer value. *)
Definition lit (z : Z) : Number :=
  round_ratio (z <? 0) (Z.abs z) 1.

(** The exact value of a finite non-zero Number, as a fraction. *)
Definition ratio_of (m : positive) (e : Z) : Z * Z :=
  if 0 <=? e then (Z.pos m * 2 ^ e, 1) else (Z.pos m, 2 ^ (- e)).

(** [p / q * 10 ^ t] as a fraction. *)
Definition scale10 (pq : Z * Z) (t : Z) : Z * Z :=
  let '(p, q) := pq in
  if 0 <=? t then (p * 10 ^ t, q) else (p, q * 10 ^ (- t)).

Definition digits_of (n : Z) : string :=
  NilZero.string_of_uint (N.to_uint (Z.to_N n)).

Fixpoint repeat0 (n : nat) : string :=
  match n with
  | O => ""
  | S n' => String "0" (repeat0 n')
  end.

(** The least [n] with [p / q < 10 ^ n], searched upwards from [n]. *)
Fixpoint search_exponent (fuel : nat) (pq : Z * Z) (n : Z) : Z :=
  match fuel with
  | O => n
  | S fuel' =>
      let '(a, b) := scale10 pq (- n) in
      if a <? b then n else search_exponent fuel' pq (n + 1)
  end.

(** For [2 ^ (b - 1) <= m * 2 ^ e < 2 ^ b] the search starts below
    [(b - 1) * log10 2] and ends at most four steps later. *)
Definition decimal_exponent (m : positive) (e : Z) : Z :=
  let b := Zdigits2 (Z.pos m) + e in
  search_exponent 8 (ratio_of m e) ((b - 1) * 30103 / 100000 - 1).

(** Number::toString, step 5: the shortest digit string [s] of [k]
    digits and the exponent [n] such that [s * 10 ^ (n - k)] rounds to
    the Number; among several [s] the closest, then the even one. *)
Fixpoint shortest (fuel : nat) (x : Number) (pq : Z * Z) (n0 k : Z)
  : Z * Z * Z :=
  let '(a, b) := scale10 pq (k - n0) in
  let lo := a / b in
  let hi := lo + 1 in
  let back s := let '(c, d) := scale10 (s, 1) (n0 - k) in round_ratio false c d in
  let ok s := match SFcompare (back s) x with Some Eq => true | _ => false end in
  let norm s := if s =? 10 ^ k then (10 ^ (k - 1), n0 + 1, k) else (s, n0, k) in
  let dlo := a - lo * b in
  let dhi := hi * b - a in
  let pick :=
    if dlo <? dhi then lo
    else if dhi <? dlo then hi
    else if Z.even lo then lo else hi in
  match fuel with
  | O => norm pick
  | S fuel' =>
      match ok lo, ok hi with
      | true, true => norm pick
      | true, false => norm lo
      | false, true => norm hi
      | false, false => shortest fuel' x pq n0 (k + 1)
      end
  end.

Definition exponent_suffix (e : Z) : string :=
  (if e <? 0 then "e-" else "e+") ++ digits_of (Z.abs e).

(** Number::toString for a finite positive Number [m * 2 ^ e]. *)
Definition toString_pos (m : positive) (e : Z) : string :=
  let pq := ratio_of m e in
  let n0 := decimal_exponent m e in
  let '(s, n, k) := shortest 20 (S754_finite false m e) pq n0 1 in
  let ds := digits_of s in
  if (k <=? n) && (n <=? 21) then
    ds ++ repeat0 (Z.to_nat (n - k))
  else if (0 <? n) && (n <=? 21) then
    substring 0 (Z.to_nat n) ds ++ "." ++
    substring (Z.to_nat n) (Z.to_nat (k - n)) ds
  else if (-6 <? n) && (n <=? 0) then
    "0." ++ repeat0 (Z.to_nat (- n)) ++ ds
  else if k =? 1 then
    ds ++ exponent_suffix (n - 1)
  else
    substring 0 1 ds ++ "." ++ substring 1 (Z.to_nat (k - 1)) ds
      ++ exponent_suffix (n - 1).

(** Number::toString(x, 10). *)
Definition toString (x : Number) : string :=
  match x with
  | S754_nan => "NaN"
  | S754_zero _ => "0"
  | S754_infinity false => "Infinity"
  | S754_infinity true => "-Infinity"
  | S754_finite false m e => toString_pos m e
  | S754_finite true m e => "-" ++ toString_pos m e
  end.

(** Number.prototype.toFixed(f) for a finite non-negative value
    [p / q] below 10 ^ 21: the integer [n] nearest to [p / q * 10 ^ f],
    the larger one on a tie, with a point before its last [f] digits. *)
Definition toFixed_digits (f : nat) (pq : Z * Z) : string :=
  let '(a, b) := scale10 pq (Z.of_nat f) in
  let n := (2 * a + b) / (2 * b) in
  let m := digits_of n in
  match f with
  | O => m
  | _ =>
      let k := String.length m in
      let m' := if Nat.leb k f then repeat0 (f + 1 - k) ++ m else m in
      let k' := String.length m' in
      substring 0 (k' - f) m' ++ "." ++ substring (k' - f) f m'
  end.

Definition toFixed (x : Number) (f : nat) : string :=
  match x with
  | S754_nan | S754_infinity _ => toString x
  | S754_zero _ => toFixed_digits f (0, 1)
  | S754_finite s m e =>
      let '(p, q) := ratio_of m e in
      if 10 ^ 21 * q <=? p then toString x
      else (if s then "-" else "") ++ toFixed_digits f (p, q)
  end.


(** *** Strings *)

Definition code (c : ascii) : N := N_of_ascii c.

(** WhiteSpace and LineTerminator code units: TAB, LF, VT, FF, CR, SP
    and NBSP.  [String.prototype.trim] strips them and [\s] matches
    them. *)
Definition isWhiteSpace (c : ascii) : bool :=
  let n := code c in
  (((9 <=? n) && (n <=? 13)) || (n =? 32) || (n =? 160))%N.

Definition lowerChar (c : ascii) : ascii :=
  let n := code c in
  if (((65 <=? n) && (n <=? 90))
      || ((192 <=? n) && (n <=? 222) && negb (n =? 215)))%N
  then ascii_of_N (n + 32) else c.

Fixpoint toLowerCase (s : string) : string :=
  match s with
  | EmptyString => EmptyString
  | String c s' => String (lowerChar c) (toLowerCase s')
  end.

Definition startsWith (s p : string) : bool := prefix p s.

Fixpoint includes (s sub : string) : bool :=
  prefix sub s ||
  match s with
  | EmptyString => false
  | String _ s' => includes s' sub
  end.

Fixpoint trimStart (s : string) : string :=
  match s with
  | EmptyString => EmptyString
  | String c s' => if isWhiteSpace c then trimStart s' else s
  end.

Fixpoint trimEnd (s : string) : string :=
  match s with
  | EmptyString => EmptyString
  | String c s' =>
      match trimEnd s' with
      | EmptyString => if isWhiteSpace c then EmptyString else String c EmptyString
      | t => String c t
      end
  end.

Definition trim (s : string) : string := trimEnd (trimStart s).

(** ToBoolean of a string. *)
Definition truthy (s : string) : bool :=
  match s with
  | EmptyString => false
  | _ => true
  end.

(** [s.split(/\s+/)]: [cur] is the piece being read, [inws] tells that
    the previous character was white space. *)
Fixpoint split_ws_from (inws : bool) (cur : string) (s : string) : list string :=
  match s with
  | EmptyString => [cur]
  | String c s' =>
      if isWhiteSpace c then
        if inws then split_ws_from true cur s'
        else cur :: split_ws_from true EmptyString s'
      else split_ws_from false (cur ++ String c EmptyString) s'
  end.

Definition split_ws (s : string) : list string :=
  split_ws_from false EmptyString s.

(** *** ToNumber of a string (StringToNumber) *)

Definition digitValue (c : ascii) : option Z :=
  let n := code c in
  if ((48 <=? n) && (n <=? 57))%N then Some (Z.of_N n - 48)
  else if ((97 <=? n) && (n <=? 102))%N then Some (Z.of_N n - 87)
  else if ((65 <=? n) && (n <=? 70))%N then Some (Z.of_N n - 55)
  else None.

(** The longest run of digits of [base] at the head of [s]: its value
    on top of [acc], its length on top of [cnt], and the rest. *)
Fixpoint readDigits (base : Z) (acc : Z) (cnt : nat) (s : string)
  : Z * nat * string :=
  match s with
  | EmptyString => (acc, cnt, s)
  | String c s' =>
      match digitValue c with
      | Some d =>
          if d <? base then readDigits base (acc * base + d) (S cnt) s'
          else (acc, cnt, s)
      | None => (acc, cnt, s)
      end
  end.

(** NonDecimalIntegerLiteral after its prefix. *)
Definition readRadix (base : Z) (s : string) : Number :=
  match readDigits base 0 0 s with
  | (v, S _, EmptyString) => round_ratio false v 1
  | _ => NaN
  end.

(** ExponentPart, optional: the exponent, or [None] when malformed. *)
Definition readExponent (s : string) : option Z :=
  match s with
  | EmptyString => Some 0
  | String c s' =>
      if (code c =? 101)%N || (code c =? 69)%N then
        let '(neg, s'') :=
          match s' with
          | String "+" t => (false, t)
          | String "-" t => (true, t)
          | _ => (false, s')
          end in
        match readDigits 10 0 0 s'' with
        | (v, S _, EmptyString) => Some (if neg then - v else v)
        | _ => None
        end
      else None
  end.

(** StrUnsignedDecimalLiteral with sign [sx]. *)
Definition readDecimal (sx : bool) (s : string) : Number :=
  if String.eqb s "Infinity" then S754_infinity sx
  else
    let '(ip, ni, r1) := readDigits 10 0 0 s in
    let '(m, nf, r2) :=
      match r1 with
      | String "." t => readDigits 10 ip 0 t
      | _ => (ip, 0%nat, r1)
      end in
    match (ni + nf)%nat, readExponent r2 with
    | S _, Some ex =>
        let '(p, q) := scale10 (m, 1) (ex - Z.of_nat nf) in
        round_ratio sx p q
    | _, _ => NaN
    end.

Definition ToNumber (str : string) : Number :=
  match trim str with
  | EmptyString => S754_zero false
  | String "+" s => readDecimal false s
  | String "-" s => readDecimal true s
  | String "0" (String "x" s) | String "0" (String "X" s) => readRadix 16 s
  | String "0" (String "o" s) | String "0" (String "O" s) => readRadix 8 s
  | String "0" (String "b" s) | String "0" (String "B" s) => readRadix 2 s
  | s => readDecimal false s
  end.

(** *** Array.prototype.sort with a comparator

    The sort is stable: [x] is put before the first [y] that the
    comparator does not order strictly before it. *)

Section Sort.
Context {A : Type}.
Variable compareFn : A -> A -> Z.

Fixpoint sort_insert (x : A) (l : list A) : list A :=
  match l with
  | [] => [x]
  | y :: l' =>
      if compareFn x y <=? 0 then x :: l else y :: sort_insert x l'
  end.

Fixpoint sort (l : list A) : list A :=
  match l with
  | [] => []
  | x :: l' => sort_insert x (sort l')
  end.
End Sort.

End JS.

(** ** The component *)

Import JS.

(** *** Data *)

Record DataPoint := mkDataPoint {
  name : string;
  revenue : Number;
  customers : Number;
  products : Number
}.

Record Summary := mkSummary {
  totalRevenue : Number;
  totalCustomers : Number;
  averageGrowth : string
}.

Record Results := mkResults {
  data : list DataPoint;
  summary : Summary;
  insights : list string
}.

Record QueryItem := mkQueryItem {
  query : string;
  timestamp : string;
  results : Results
}.

Record State := mkState {
  queries : list QueryItem;
  currentQuery : string;
  currentResults : option Results;
  isProcessing : bool;
  error : option string;
  suggestionMode : bool
}.

Inductive Action :=
| SET_CURRENT_QUERY (payload : string)
| SUBMIT_QUERY
| PROCESS_QUERY_SUCCESS (payload : Results)
| PROCESS_QUERY_FAILURE (payload : string)
| CLEAR_HISTORY
| OTHER (type : string).

(** *** queryReducer

    [now] is the value of [new Date().toLocaleString()] when the
    reducer runs. *)
Definition queryReducer (now : string) (state : State) (action : Action) : State :=
  match action with
  | SET_CURRENT_QUERY payload =>
      {| queries := queries state;
         currentQuery := payload;
         currentResults := currentResults state;
         isProcessing := isProcessing state;
         error := None;
         suggestionMode := startsWith payload "/" |}
  | SUBMIT_QUERY =>
      {| queries := queries state;
         currentQuery := currentQuery state;
         currentResults := currentResults state;
         isProcessing := true;
         error := None;
         suggestionMode := suggestionMode state |}
  | PROCESS_QUERY_SUCCESS payload =>
      {| queries := queries state ++
           [ {| query := currentQuery state;
                timestamp := now;
                results := payload |} ];
         currentQuery := "";
         currentResults := Some payload;
         isProcessing := false;
         error := None;
         suggestionMode := suggestionMode state |}
  | PROCESS_QUERY_FAILURE payload =>
      {| queries := queries state;
         currentQuery := currentQuery state;
         currentResults := None;
         isProcessing := false;
         error := Some payload;
         suggestionMode := suggestionMode state |}
  | CLEAR_HISTORY =>
      {| queries := [];
         currentQuery := currentQuery state;
         currentResults := None;
         isProcessing := isProcessing state;
         error := None;
         suggestionMode := suggestionMode state |}
  | OTHER _ => state
  end.

Definition AI_SUGGESTIONS : list string :=
  [ "Top performing products this quarter";
    "Sales conversion rate by channel";
    "Market share analysis in key regions";
    "Operational efficiency metrics";
    "Seasonal trends impact on business";
    "Monthly revenue breakdown by product category";
    "Year-over-year revenue growth analysis";
    "Revenue forecast for next quarter";
    "Impact of pricing changes on revenue";
    "Revenue attribution by marketing channel";
    "Customer lifetime value analysis";
    "Customer segmentation by spending patterns";
    "Churn rate analysis for premium customers";
    "New vs returning customer revenue";
    "Customer acquisition cost trends";
    "Sales performance by region";
    "Customer retention rates";
    "Product revenue trends";
    "Marketing campaign effectiveness";
    "Quarterly financial overview";
    "Competitive market analysis" ].

(** [Object.entries(COMMAND_SHORTCUTS)]: the keys in insertion order. *)
Definition COMMAND_SHORTCUTS : list (string * string) :=
  [ ("/revenue", "Detailed revenue breakdown");
    ("/customers", "Comprehensive customer metrics");
    ("/top-products", "Ranking of top-performing products");
    ("/regional-performance", "Comparative regional performance analysis");
    ("/forecast", "Revenue and growth prediction") ].

Definition initialState : State :=
  {| queries := [];
     currentQuery := "";
     currentResults := None;
     isProcessing := false;
     error := None;
     suggestionMode := false |}.

(** *** calculateGrowthRate

    [data] is [None] for a falsy argument; an element is [None] when
    it is [null] or [undefined], and reading its [revenue] throws. *)
Definition calculateGrowthRate (data : option (list (option DataPoint))) : string :=
  match data with
  | None => "N/A"
  | Some rows =>
      if (List.length rows <? 2)%nat then "N/A"
      else
        match nth 0 rows None, nth (List.length rows - 1) rows None with
        | Some first, Some last =>
            let firstValue := revenue first in
            let lastValue := revenue last in
            toFixed (mul (div (sub lastValue firstValue) firstValue) (lit 100)) 2
        | _, _ => "Unavailable"
        end
  end.

(** *** generateInsights

    [results] is the object literal built at the call site: a summary
    with [averageGrowth] and [totalCustomers] only. *)
Record InsightInput := mkInsightInput {
  in_averageGrowth : string;
  in_totalCustomers : Number
}.

Record InsightRule := mkInsightRule {
  condition : string -> bool;
  insight : unit -> string
}.

Definition insightRules (results : InsightInput) : list InsightRule :=
  [ {| condition := fun q => includes q "revenue";
       insight := fun _ =>
         "Revenue " ++
         (if gt (ToNumber (in_averageGrowth results)) (lit 0)
          then "increased" else "decreased") ++
         " by " ++ toString (abs (ToNumber (in_averageGrowth results))) ++ "%" |};
    {| condition := fun q => includes q "customer";
       insight := fun _ =>
         "Customer base shows " ++
         (if gt (in_totalCustomers results) (lit 1500)
          then "strong" else "moderate") ++
         " growth" |};
    {| condition := fun q => includes q "product";
       insight := fun _ => "Product portfolio demonstrates consistent performance" |} ].

Definition generateInsights (query : string) (results : InsightInput) : string :=
  match find (fun rule => condition rule query) (insightRules results) with
  | Some matchedInsight => insight matchedInsight tt
  | None => "General performance remains stable"
  end.

(** *** generateMockResults *)
Definition baseData : list DataPoint :=
  [ {| name := "Q1 2023"; revenue := lit 450000; customers := lit 1200; products := lit 50 |};
    {| name := "Q2 2023"; revenue := lit 520000; customers := lit 1350; products := lit 55 |};
    {| name := "Q3 2023"; revenue := lit 610000; customers := lit 1500; products := lit 60 |};
    {| name := "Q4 2023"; revenue := lit 680000; customers := lit 1650; products := lit 65 |} ].

Definition generateMockResults (query : string) : Results :=
  {| data := baseData;
     summary :=
       {| totalRevenue := fold_left (fun sum item => add sum (revenue item)) baseData (lit 0);
          totalCustomers := fold_left (fun sum item => add sum (customers item)) baseData (lit 0);
          averageGrowth := calculateGrowthRate (Some (map Some baseData)) |};
     insights :=
       [ generateInsights query
           {| in_averageGrowth := calculateGrowthRate (Some (map Some baseData));
              in_totalCustomers :=
                fold_left (fun sum item => add sum (customers item)) baseData (lit 0) |} ] |}.

(** *** handleQueryChange

    A suggestion is a command entry [[cmd, description]] or a phrase. *)
Inductive Suggestion :=
| CommandEntry (cmd description : string)
| Phrase (suggestion : string).

(** The score is a small integer Number; it is kept exact as a [Z]. *)
Record Scored := mkScored {
  suggestion : string;
  score : Z
}.

Definition matchedCommands (value : string) : list (string * string) :=
  filter (fun entry => includes (toLowerCase (fst entry)) (toLowerCase value))
         COMMAND_SHORTCUTS.

Definition keywords (value : string) : list string :=
  filter (fun word => (2 <? String.length word)%nat) (split_ws (toLowerCase value)).

Definition scoredSuggestions (value : string) : list Scored :=
  map (fun suggestion =>
         let suggestionLower := toLowerCase suggestion in
         let score := if includes suggestionLower (toLowerCase value) then 10 else 0 in
         let score :=
           fold_left (fun score keyword =>
                        if includes suggestionLower keyword then score + 5 else score)
                     (keywords value) score in
         {| suggestion := suggestion; score := score |})
      AI_SUGGESTIONS.

Definition filteredSuggestions (value : string) : list string :=
  firstn 7
    (map suggestion
       (sort (fun a b => score b - score a)
          (filter (fun item => 0 <? score item) (scoredSuggestions value)))).

(** The argument of [setSuggestions] in [handleQueryChange]. *)
Definition newSuggestions (value : string) : list Suggestion :=
  if startsWith value "/" then
    map (fun entry => CommandEntry (fst entry) (snd entry)) (matchedCommands value)
  else if (0 <? String.length (trim value))%nat then
    map Phrase (filteredSuggestions value)
  else [].

(** The component: the reducer state, the two suggestion hooks, and
    the payloads of the [setTimeout] callbacks not yet run, oldest
    first. *)
Record Dashboard := mkDashboard {
  state : State;
  suggestions : list Suggestion;
  showSuggestions : bool;
  timers : list Results
}.

Definition initialDashboard : Dashboard :=
  {| state := initialState;
     suggestions := [];
     showSuggestions := false;
     timers := [] |}.

Definition dispatch (now : string) (action : Action) (d : Dashboard) : Dashboard :=
  {| state := queryReducer now (state d) action;
     suggestions := suggestions d;
     showSuggestions := showSuggestions d;
     timers := timers d |}.

Definition handleQueryChange (now : string) (value : string) (d : Dashboard) : Dashboard :=
  let d := dispatch now (SET_CURRENT_QUERY value) d in
  {| state := state d;
     suggestions := newSuggestions value;
     showSuggestions := true;
     timers := timers d |}.

(** *** handleQuerySubmit

    The synthesizer is an argument: [None] stands for a call that
    throws, which the [try] ... [catch] turns into a failure.  The
    component passes [generateMockResults], which does not throw. *)
Definition handleQuerySubmitWith (synthesize : string -> option Results)
    (now : string) (d : Dashboard) : Dashboard :=
  if negb (truthy (trim (currentQuery (state d)))) then
    dispatch now (PROCESS_QUERY_FAILURE "Query cannot be empty") d
  else
    let d' := dispatch now SUBMIT_QUERY d in
    match synthesize (currentQuery (state d)) with
    | Some mockResults =>
        {| state := state d';
           suggestions := suggestions d';
           showSuggestions := showSuggestions d';
           timers := timers d' ++ [mockResults] |}
    | None =>
        dispatch now
          (PROCESS_QUERY_FAILURE "Unable to process query. Please try again.") d'
    end.

Definition handleQuerySubmit : string -> Dashboard -> Dashboard :=
  handleQuerySubmitWith (fun query => Some (generateMockResults query)).

(** The callback given to [setTimeout], run on the oldest pending
    payload. *)
Definition timeout (now : string) (d : Dashboard) : Dashboard :=
  match timers d with
  | [] => d
  | mockResults :: rest =>
      dispatch now (PROCESS_QUERY_SUCCESS mockResults)
        {| state := state d;
           suggestions := suggestions d;
           showSuggestions := showSuggestions d;
           timers := rest |}
  end.

(** The [onClick] of the Rerun button of [queryItem]. *)
Definition rerun (now : string) (queryItem : QueryItem) (d : Dashboard) : Dashboard :=
  dispatch now (PROCESS_QUERY_SUCCESS (results queryItem)) d.

(** The [onClick] of the Clear History button. *)
Definition clearHistory (now : string) (d : Dashboard) : Dashboard :=
  dispatch now CLEAR_HISTORY d.

(** *** Sessions

    What the user and the timer can do to the component.  The submit
    button is disabled while [currentQuery] is empty; a Rerun button
    exists for each history entry. *)
Inductive Event :=
| Input (value : string)
| ClickGetInsights
| ClickClearHistory
| ClickRerun (index : nat)
| Timeout.

Definition step (d : Dashboard) (ev : string * Event) : Dashboard :=
  let '(now, e) := ev in
  match e with
  | Input value => handleQueryChange now value d
  | ClickGetInsights =>
      if truthy (currentQuery (state d)) then handleQuerySubmit now d else d
  | ClickClearHistory => clearHistory now d
  | ClickRerun index =>
      match nth_error (queries (state d)) index with
      | Some queryItem => rerun now queryItem d
      | None => d
      end
  | Timeout => timeout now d
  end.

Definition run (evs : list (string * Event)) (d : Dashboard) : Dashboard :=
  fold_left step evs d.

(** The reducer alone, over a sequence of actions. *)
Definition reduce (acts : list (string * Action)) (s : State) : State :=
  fold_left (fun s a => queryReducer (fst a) s (snd a)) acts s.

(** ** Notions used in the statements *)

(** Empty or made of white space only. *)
Fixpoint isBlank (s : string) : bool :=
  match s with
  | EmptyString => true
  | String c s' => isWhiteSpace c && isBlank s'
  end.

(** Free of white space. *)
Fixpoint noWhiteSpace (s : string) : bool :=
  match s with
  | EmptyString => true
  | String c s' => negb (isWhiteSpace c) && noWhiteSpace s'
  end.

(** The score of a phrase for a query, in closed form: 10 for the
    whole query, 5 for each keyword. *)
Definition phraseScore (value phrase : string) : Z :=
  (if includes (toLowerCase phrase) (toLowerCase value) then 10 else 0)
  + 5 * Z.of_nat (List.length
                    (filter (fun keyword => includes (toLowerCase phrase) keyword)
                            (keywords value))).

(** [ranked] is the list of the phrases of positive score, by
    descending score, phrases of equal score in the order of
    [AI_SUGGESTIONS]. *)
Definition rankedPhrases (value : string) (ranked : list string) : Prop :=
  let candidates := filter (fun p => 0 <? phraseScore value p) AI_SUGGESTIONS in
  Permutation ranked candidates
  /\ StronglySorted (fun p q => phraseScore value q <= phraseScore value p) ranked
  /\ forall k, filter (fun p => phraseScore value p =? k) ranked
             = filter (fun p => phraseScore value p =? k) candidates.

(** The sentence of the first insight rule. *)
Definition revenueInsight (growth : string) : string :=
  "Revenue " ++
  (if gt (ToNumber growth) (lit 0) then "increased" else "decreased") ++
  " by " ++ toString (abs (ToNumber growth)) ++ "%".

Definition customerInsight (totalCustomers : Number) : string :=
  "Customer base shows " ++
  (if gt totalCustomers (lit 1500) then "strong" else "moderate") ++ " growth".

(** *** Sessions used as examples *)

(** One query typed, submitted and resolved. *)
Definition oneQuery : list (string * Event) :=
  [ ("10:00:00", Input "revenue");
    ("10:00:01", ClickGetInsights);
    ("10:00:02", Timeout) ].

Definition firstRecord : QueryItem :=
  {| query := "revenue";
     timestamp := "10:00:02";
     results := generateMockResults "revenue" |}.


(** The text is changed while the submission is pending. *)
Definition editedWhilePending : list (string * Event) :=
  [ ("10:00:00", Input "revenue");
    ("10:00:01", ClickGetInsights);
    ("10:00:01", Input "customers");
    ("10:00:02", Timeout) ].

(** White space typed into the input. *)
Definition blankTyped : Dashboard :=
  run [ ("10:00:00", Input "revenue");
        ("10:00:01", ClickGetInsights);
        ("10:00:02", Timeout);
        ("10:00:03", Input "   ") ] initialDashboard.

(** Two rows, the first with no revenue. *)
Definition zeroFirst : list (option DataPoint) :=
  [ Some {| name := "Q1 2023"; revenue := lit 0; customers := lit 0; products := lit 0 |};
    Some {| name := "Q2 2023"; revenue := lit 520000; customers := lit 1350; products := lit 55 |} ].

Definition mockInsightInput : InsightInput :=
  {| in_averageGrowth := "51.11"; in_totalCustomers := lit 5700 |}.

(** ** The rest of the component *)

Definition COLOR_PALETTE : list string :=
  [ "#0088FE"; "#00C49F"; "#FFBB28"; "#FF8042";
    "#8884D8"; "#82CA9D"; "#FF6384";
    "#36A2EB"; "#FFCE56"; "#4BC0C0" ].

(** *** handleSuggestionSelect

    [None] is an uncaught TypeError: in command mode [suggestion[0]]
    of an empty phrase is [undefined]; outside command mode a command
    entry is an array, and both reach [value.startsWith].  In command
    mode [suggestion[0]] of a phrase is its first character. *)
Definition handleSuggestionSelect (now : string) (suggestion : Suggestion)
    (d : Dashboard) : option Dashboard :=
  let changed :=
    if suggestionMode (state d) then
      match suggestion with
      | CommandEntry cmd _ => Some (handleQueryChange now cmd d)
      | Phrase (String c _) => Some (handleQueryChange now (String c EmptyString) d)
      | Phrase EmptyString => None
      end
    else
      match suggestion with
      | Phrase text => Some (handleQueryChange now text d)
      | CommandEntry _ _ => None
      end in
  match changed with
  | Some d' =>
      Some {| state := state d';
              suggestions := [];
              showSuggestions := false;
              timers := timers d' |}
  | None => None
  end.

(** The suggestion container is in the document when it is rendered. *)
Definition suggestionContainerShown (d : Dashboard) : bool :=
  showSuggestions d && (0 <? List.length (suggestions d))%nat.

(** *** handleClickOutside

    [outside] tells that the target of the mousedown is neither in the
    suggestion container nor in the input; the input is always in the
    document. *)
Definition handleClickOutside (outside : bool) (d : Dashboard) : Dashboard :=
  if suggestionContainerShown d && outside then
    {| state := state d;
       suggestions := [];
       showSuggestions := false;
       timers := timers d |}
  else d.

(** *** renderVisualization

    The chart element with its data; a pie has one cell per row, filled
    with [COLOR_PALETTE[index % COLOR_PALETTE.length]], [None] for
    [undefined]. *)
Inductive Chart :=
| BarChart (rows : list DataPoint)
| PieChart (rows : list DataPoint) (cells : list (option string))
| LineChart (rows : list DataPoint).

Definition renderVisualization (visualizationType : string) (s : State) : option Chart :=
  match currentResults s with
  | None => None
  | Some r =>
      let rows := data r in
      if String.eqb visualizationType "bar" then Some (BarChart rows)
      else if String.eqb visualizationType "pie" then
        Some (PieChart rows
                (map (fun index =>
                        nth_error COLOR_PALETTE (index mod List.length COLOR_PALETTE)%nat)
                     (seq 0 (List.length rows))))
      else Some (LineChart rows)
  end.

(** *** The page

    The gestures of the session, the click on the suggestion shown at
    [index], and a mousedown. *)
Inductive Gesture :=
| Session (e : Event)
| SelectSuggestion (index : nat)
| MouseDown (outside : bool).

Definition uiStep (d : Dashboard) (g : string * Gesture) : option Dashboard :=
  let '(now, gesture) := g in
  match gesture with
  | Session e => Some (step d (now, e))
  | SelectSuggestion index =>
      if suggestionContainerShown d then
        match nth_error (suggestions d) index with
        | Some suggestion => handleSuggestionSelect now suggestion d
        | None => Some d
        end
      else Some d
  | MouseDown outside => Some (handleClickOutside outside d)
  end.

Fixpoint uiRun (gs : list (string * Gesture)) (d : Dashboard) : option Dashboard :=
  match gs with
  | [] => Some d
  | g :: gs' =>
      match uiStep d g with
      | Some d' => uiRun gs' d'
      | None => None
      end
  end.

(** *** Notions for the page *)

Definition isCommandEntry (s : Suggestion) : bool :=
  match s with
  | CommandEntry _ _ => true
  | Phrase _ => false
  end.

(** What a suggestion puts into the input when it is chosen. *)
Definition suggestionText (s : Suggestion) : string :=
  match s with
  | CommandEntry cmd _ => cmd
  | Phrase text => text
  end.

(** The suggestions are of the kind that [suggestionMode] announces. *)
Definition suggestionsFit (d : Dashboard) : Prop :=
  Forall (fun s => isCommandEntry s = suggestionMode (state d)) (suggestions d).

Definition isMock (r : Results) : Prop :=
  exists query, r = generateMockResults query.

(** Every result held by the component came from the synthesizer. *)
Definition mockOnly (d : Dashboard) : Prop :=
  Forall (fun item => isMock (results item)) (queries (state d))
  /\ Forall isMock (timers d)
  /\ (forall r, currentResults (state d) = Some r -> isMock r).

(** The four sentences the synthesizer can emit. *)
Definition mockInsights : list string :=
  [ "Revenue increased by 51.11%";
    "Customer base shows strong growth";
    "Product portfolio demonstrates consistent performance";
    "General performance remains stable" ].

Definition isClear (g : string * Gesture) : bool :=
  match snd g with
  | Session ClickClearHistory => true
  | _ => false
  end.

(** What one gesture does to the session state and to the pending
    callbacks. *)
Inductive Transition (d d' : Dashboard) : Prop :=
| T_same :
    state d' = state d -> timers d' = timers d -> Transition d d'
| T_set (now value : string) :
    state d' = queryReducer now (state d) (SET_CURRENT_QUERY value) ->
    timers d' = timers d -> Transition d d'
| T_reject (now : string) :
    state d' = queryReducer now (state d) (PROCESS_QUERY_FAILURE "Query cannot be empty") ->
    timers d' = timers d -> Transition d d'
| T_submit (now : string) :
    state d' = queryReducer now (state d) SUBMIT_QUERY ->
    timers d' = (timers d ++ [generateMockResults (currentQuery (state d))])%list ->
    Transition d d'
| T_clear (now : string) :
    state d' = queryReducer now (state d) CLEAR_HISTORY ->
    timers d' = timers d -> Transition d d'
| T_rerun (now : string) (item : QueryItem) :
    In item (queries (state d)) ->
    state d' = queryReducer now (state d) (PROCESS_QUERY_SUCCESS (results item)) ->
    timers d' = timers d -> Transition d d'
| T_resolve (now : string) (r : Results) :
    timers d = r :: timers d' ->
    state d' = queryReducer now (state d) (PROCESS_QUERY_SUCCESS r) ->
    Transition d d'.

(** While the button reads "Processing...", a callback is pending. *)
Definition pendingWhileProcessing (d : Dashboard) : Prop :=
  isProcessing (state d) = true -> timers d <> [].

(** The result on display is the one of the newest history entry. *)
Definition showsLast (d : Dashboard) : Prop :=
  forall r, currentResults (state d) = Some r ->
  exists init item,
    queries (state d) = (init ++ [item])%list /\ results item = r.

(** The only error is the one of the empty query; with it there is no
    result on display and nothing is in progress. *)
Definition onlyEmptyQueryError (d : Dashboard) : Prop :=
  forall e, error (state d) = Some e ->
  e = "Query cannot be empty"
  /\ currentResults (state d) = None
  /\ isProcessing (state d) = false.

(** Suggestions are held only while they are shown. *)
Definition shownWhenPresent (d : Dashboard) : Prop :=
  suggestions d <> [] -> showSuggestions d = true.

(** Sessions used as examples. *)
Definition pickCommand : list (string * Gesture) :=
  [ ("10:00:00", Session (Input "/re"));
    ("10:00:01", SelectSuggestion 0);
    ("10:00:02", Session ClickGetInsights);
    ("10:00:03", Session Timeout);
    ("10:00:04", Session (Input "customer value")) ].

(** The state after a run from the initial page. *)
Definition after (gs : list (string * Gesture)) : Dashboard :=
  match uiRun gs initialDashboard with
  | Some d => d
  | None => initialDashboard
  end.

Definition submitted : list (string * Gesture) :=
  [ ("10:00:00", Session (Input "revenue"));
    ("10:00:01", Session ClickGetInsights) ].

Definition blankSubmitted : list (string * Gesture) :=
  [ ("10:00:00", Session (Input "revenue"));
    ("10:00:01", Session ClickGetInsights);
    ("10:00:02", Session Timeout);
    ("10:00:03", Session (Input "  "));
    ("10:00:04", Session ClickGetInsights) ].

(** The string starts with a decimal digit. *)
Definition headDigit (s : string) : bool :=
  match s with
  | String c _ => ((48 <=? code c) && (code c <=? 57))%N
  | EmptyString => false
  end.

Definition showing (r : Results) : State :=
  {| queries := [];
     currentQuery := "";
     currentResults := Some r;
     isProcessing := false;
     error := None;
     suggestionMode := false |}.

Definition typedAgain : Dashboard :=
  handleQueryChange "10:00:04" "Top revenue drivers" blankTyped.

Definition typedRevenue : Dashboard :=
  handleQueryChange "10:00:00" "revenue" initialDashboard.

Definition twoRows (first last : Number) : list (option DataPoint) :=
  [ Some {| name := "Q1 2023"; revenue := first; customers := lit 1200; products := lit 50 |};
    Some {| name := "Q2 2023"; revenue := last; customers := lit 1350; products := lit 55 |} ].

(** ** Notions for the keywords and the ranking *)

(** A word ends at the end of the string or before a white space. *)
Definition wordEnds (rest : string) : bool :=
  match rest with
  | EmptyString => true
  | String c _ => isWhiteSpace c
  end.

(** [Delimited s ws]: [ws] are the white-space-delimited words of [s]
    from left to right, each a maximal run of characters that are not
    white space. *)
Inductive Delimited : string -> list string -> Prop :=
| Delimited_blank (s : string) :
    isBlank s = true -> Delimited s []
| Delimited_word (b w rest : string) (ws : list string) :
    isBlank b = true ->
    w <> "" ->
    noWhiteSpace w = true ->
    wordEnds rest = true ->
    Delimited rest ws ->
    Delimited (b ++ w ++ rest) (w :: ws).

(** The score of a phrase for a query whose lowercase form has the
    words [words]: 10 when the lowercase phrase contains the whole
    lowercase query, and 5 for each word of more than 2 characters that
    it contains. *)
Definition wordScore (words : list string) (value phrase : string) : Z :=
  (if includes (toLowerCase phrase) (toLowerCase value) then 10 else 0)
  + 5 * Z.of_nat
          (List.length
             (filter (fun w => (2 <? String.length w)%nat
                               && includes (toLowerCase phrase) w)
                     words)).

(** [ranked] is the list of the phrases of positive [score], by
    descending score, phrases of equal score in the order of
    [AI_SUGGESTIONS]. *)
Definition rankedBy (score : string -> Z) (ranked : list string) : Prop :=
  let candidates := filter (fun p => 0 <? score p) AI_SUGGESTIONS in
  Permutation ranked candidates
  /\ StronglySorted (fun p q => score q <= score p) ranked
  /\ forall k, filter (fun p => score p =? k) ranked
             = filter (fun p => score p =? k) candidates.



(** The state after a run from [d]. *)
Definition proceed (d : Dashboard) (gs : list (string * Gesture)) : Dashboard :=
  match uiRun gs d with
  | Some d' => d'
  | None => d
  end.

(** A second query and a rerun, on a page that has a history. *)
Definition secondQuery : list (string * Gesture) :=
  [ ("10:00:05", Session ClickGetInsights);
    ("10:00:06", Session Timeout);
    ("10:00:07", Session (ClickRerun 0));
    ("10:00:08", SelectSuggestion 0) ].

(** ** Strings *)

Lemma trimEnd_empty (s : string) : trimEnd s = "" <-> isBlank s = true.
Proof.
  induction s as [| c s IH]; simpl.
  - tauto.
  - destruct (trimEnd s) eqn:E.
    + assert (Hb : isBlank s = true) by (apply IH; reflexivity).
      rewrite Hb, andb_true_r.
      destruct (isWhiteSpace c); split; intros H; congruence.
    + assert (Hb : isBlank s = false).
      { destruct (isBlank s); [| reflexivity].
        destruct IH as [_ IH]. discriminate (IH eq_refl). }
      rewrite Hb, andb_false_r. split; intros H; discriminate.
Qed.

Lemma isBlank_trimStart (s : string) : isBlank (trimStart s) = isBlank s.
Proof.
  induction s as [| c s IH]; simpl; [reflexivity |].
  destruct (isWhiteSpace c) eqn:E; simpl; [exact IH |].
  rewrite E. reflexivity.
Qed.

Lemma trim_empty (s : string) : trim s = "" <-> isBlank s = true.
Proof.
  unfold trim. rewrite trimEnd_empty, isBlank_trimStart. tauto.
Qed.

Lemma truthy_trim (s : string) : truthy (trim s) = negb (isBlank s).
Proof.
  destruct (isBlank s) eqn:E.
  - apply trim_empty in E. rewrite E. reflexivity.
  - destruct (trim s) eqn:T; [| reflexivity].
    apply trim_empty in T. congruence.
Qed.

Lemma length_trim_pos (s : string) :
  (0 <? String.length (trim s))%nat = negb (isBlank s).
Proof.
  rewrite <- truthy_trim. destruct (trim s); reflexivity.
Qed.

Lemma string_app_assoc (a b c : string) : (a ++ b) ++ c = a ++ b ++ c.
Proof. induction a as [| x a IH]; simpl; [reflexivity | now rewrite IH]. Qed.

Lemma string_app_nil_r (a : string) : a ++ "" = a.
Proof. induction a as [| x a IH]; simpl; [reflexivity | now rewrite IH]. Qed.

(** [startsWith] and [includes] are the prefix and the substring
    relations. *)
Lemma startsWith_spec (s p : string) :
  startsWith s p = true <-> exists t, s = p ++ t.
Proof.
  unfold startsWith. revert s.
  induction p as [| a p IH]; intros s.
  - destruct s; simpl; split; intros; eauto.
  - destruct s as [| b s]; simpl.
    + split; [discriminate | intros [t Ht]; discriminate].
    + destruct (ascii_dec a b) as [-> | Hne].
      * rewrite IH. split; intros [t Ht]; exists t; congruence.
      * split; [discriminate | intros [t Ht]; congruence].
Qed.

Lemma includes_spec (s sub : string) :
  includes s sub = true <-> exists pre post, s = pre ++ sub ++ post.
Proof.
  induction s as [| c s IH]; cbn [includes].
  - rewrite orb_false_r. change (prefix sub "") with (startsWith "" sub).
    rewrite startsWith_spec. split.
    + intros [t Ht]. exists "", t. exact Ht.
    + intros [pre [post H]]. destruct pre; [| discriminate]. eauto.
  - rewrite orb_true_iff, IH.
    change (prefix sub (String c s)) with (startsWith (String c s) sub).
    rewrite startsWith_spec. split.
    + intros [[t Ht] | [pre [post H]]].
      * exists "", t. exact Ht.
      * exists (String c pre), post. simpl. now rewrite H.
    + intros [pre [post H]]. destruct pre as [| c' pre]; simpl in H.
      * left. eauto.
      * right. exists pre, post. congruence.
Qed.

(** The pieces of [split_ws] hold no white space. *)
Lemma noWhiteSpace_app (s t : string) :
  noWhiteSpace (s ++ t) = noWhiteSpace s && noWhiteSpace t.
Proof.
  induction s as [| c s IH]; simpl; [reflexivity |].
  now rewrite IH, andb_assoc.
Qed.

Lemma split_ws_from_pieces (s : string) (inws : bool) (cur : string) :
  noWhiteSpace cur = true ->
  Forall (fun w => noWhiteSpace w = true) (split_ws_from inws cur s).
Proof.
  revert inws cur. induction s as [| c s IH]; intros inws cur Hc; simpl.
  - now constructor.
  - destruct (isWhiteSpace c) eqn:E.
    + destruct inws; [now apply IH |].
      constructor; [exact Hc | now apply IH].
    + apply IH. rewrite noWhiteSpace_app, Hc. simpl. now rewrite E.
Qed.

Lemma split_ws_pieces (s : string) :
  Forall (fun w => noWhiteSpace w = true) (split_ws s).
Proof. now apply split_ws_from_pieces. Qed.

(** ** The stable sort *)

Section SortFacts.
Context {A : Type}.
Variable key : A -> Z.

Lemma sort_insert_perm (x : A) (l : list A) :
  Permutation (sort_insert (fun a b => key b - key a) x l) (x :: l).
Proof.
  induction l as [| y l IH]; simpl; [reflexivity |].
  destruct (key y - key x <=? 0); [reflexivity |].
  rewrite IH. apply perm_swap.
Qed.

Lemma sort_perm (l : list A) :
  Permutation (sort (fun a b => key b - key a) l) l.
Proof.
  induction l as [| x l IH]; simpl; [reflexivity |].
  rewrite sort_insert_perm. now constructor.
Qed.

Lemma sort_insert_sorted (x : A) (l : list A) :
  StronglySorted (fun a b => key b <= key a) l ->
  StronglySorted (fun a b => key b <= key a)
                 (sort_insert (fun a b => key b - key a) x l).
Proof.
  induction 1 as [| y l Hs IH Hy]; simpl.
  - repeat constructor.
  - destruct (key y - key x <=? 0) eqn:E.
    + apply Z.leb_le in E. constructor; [now constructor |].
      constructor; [lia |].
      eapply Forall_impl; [| exact Hy]. simpl. intros; lia.
    + apply Z.leb_gt in E. constructor; [exact IH |].
      eapply Permutation_Forall; [symmetry; apply sort_insert_perm |].
      constructor; [lia | exact Hy].
Qed.

Lemma sort_sorted (l : list A) :
  StronglySorted (fun a b => key b <= key a)
                 (sort (fun a b => key b - key a) l).
Proof.
  induction l as [| x l IH]; simpl; [constructor |].
  now apply sort_insert_sorted.
Qed.

(** Stability: the elements of one key keep their order. *)
Lemma sort_insert_stable (k : Z) (x : A) (l : list A) :
  filter (fun a => key a =? k) (sort_insert (fun a b => key b - key a) x l)
  = filter (fun a => key a =? k) (x :: l).
Proof.
  induction l as [| y l IH]; [reflexivity |].
  cbn [sort_insert]. destruct (key y - key x <=? 0) eqn:E; [reflexivity |].
  apply Z.leb_gt in E.
  cbn [filter] in *. rewrite IH.
  destruct (key y =? k) eqn:Ey; [| reflexivity].
  apply Z.eqb_eq in Ey.
  destruct (key x =? k) eqn:Ex; [| reflexivity].
  apply Z.eqb_eq in Ex. lia.
Qed.

Lemma sort_stable (k : Z) (l : list A) :
  filter (fun a => key a =? k) (sort (fun a b => key b - key a) l)
  = filter (fun a => key a =? k) l.
Proof.
  induction l as [| x l IH]; [reflexivity |].
  cbn [sort]. rewrite sort_insert_stable. cbn [filter]. now rewrite IH.
Qed.
(** A list is determined by its order by key and the order within
    each key. *)
Lemma filter_key_nil (l : list A) :
  (forall k, filter (fun a => key a =? k) l = []) -> l = [].
Proof.
  destruct l as [| x l]; [reflexivity |].
  intros H. specialize (H (key x)). cbn [filter] in H.
  rewrite Z.eqb_refl in H. discriminate H.
Qed.

Lemma sorted_head_max (x : A) (l : list A) (k : Z) :
  StronglySorted (fun a b => key b <= key a) (x :: l) ->
  filter (fun a => key a =? k) (x :: l) <> [] -> k <= key x.
Proof.
  intros Hs Hne. apply StronglySorted_inv in Hs. destruct Hs as [_ Hx].
  destruct (filter (fun a => key a =? k) (x :: l)) as [| y r] eqn:E;
    [now contradiction Hne |].
  assert (Hy : In y (filter (fun a => key a =? k) (x :: l)))
    by (rewrite E; now left).
  apply filter_In in Hy. destruct Hy as [[<- | Hin] Hk]; apply Z.eqb_eq in Hk.
  - lia.
  - rewrite Forall_forall in Hx. specialize (Hx y Hin). lia.
Qed.

Lemma sorted_stable_unique (l1 l2 : list A) :
  StronglySorted (fun a b => key b <= key a) l1 ->
  StronglySorted (fun a b => key b <= key a) l2 ->
  (forall k, filter (fun a => key a =? k) l1 = filter (fun a => key a =? k) l2) ->
  l1 = l2.
Proof.
  revert l2. induction l1 as [| x l1 IH]; intros l2 H1 H2 Hf.
  - symmetry. apply filter_key_nil. intros k. now rewrite <- Hf.
  - destruct l2 as [| y l2].
    + apply filter_key_nil. intros k. now rewrite Hf.
    + assert (Hxy : key x = key y).
      { apply Z.le_antisymm.
        - apply (sorted_head_max y l2 (key x) H2). rewrite <- Hf.
          cbn [filter]. rewrite Z.eqb_refl. discriminate.
        - apply (sorted_head_max x l1 (key y) H1). rewrite Hf.
          cbn [filter]. rewrite Z.eqb_refl. discriminate. }
      assert (Hh := Hf (key x)). cbn [filter] in Hh.
      rewrite <- Hxy, Z.eqb_refl in Hh. injection Hh as Hh Ht. subst y.
      f_equal. apply IH.
      * now apply StronglySorted_inv in H1.
      * now apply StronglySorted_inv in H2.
      * intros k. specialize (Hf k). cbn [filter] in Hf.
        destruct (key x =? k); [now injection Hf | exact Hf].
Qed.
End SortFacts.

Lemma sort_map {A B : Type} (f : A -> B) (cmpA : A -> A -> Z) (cmpB : B -> B -> Z) :
  (forall a b, cmpB (f a) (f b) = cmpA a b) ->
  forall l, sort cmpB (map f l) = map f (sort cmpA l).
Proof.
  intros Hc.
  assert (Hi : forall x l, sort_insert cmpB (f x) (map f l) = map f (sort_insert cmpA x l)).
  { intros x l. induction l as [| y l IH]; [reflexivity |].
    simpl. rewrite Hc. destruct (cmpA x y <=? 0); [reflexivity |].
    simpl. now rewrite IH. }
  induction l as [| x l IH]; [reflexivity |].
  simpl. now rewrite IH, Hi.
Qed.

Lemma filter_map_commute {A B : Type} (f : A -> B) (p : B -> bool) (l : list A) :
  filter p (map f l) = map f (filter (fun a => p (f a)) l).
Proof.
  induction l as [| x l IH]; [reflexivity |].
  simpl. destruct (p (f x)); simpl; now rewrite IH.
Qed.

(** ** The suggestion scorer *)

Lemma keyword_points (hit : string -> bool) (ks : list string) (base : Z) :
  fold_left (fun score keyword => if hit keyword then score + 5 else score) ks base
  = base + 5 * Z.of_nat (List.length (filter hit ks)).
Proof.
  revert base. induction ks as [| k ks IH]; intros base.
  - cbn [fold_left filter List.length]. lia.
  - cbn [fold_left filter]. rewrite IH.
    destruct (hit k); cbn [List.length]; lia.
Qed.

Lemma scoredSuggestions_phraseScore (value : string) :
  scoredSuggestions value
  = map (fun p => {| suggestion := p; score := phraseScore value p |}) AI_SUGGESTIONS.
Proof.
  unfold scoredSuggestions. apply map_ext. intros p.
  rewrite keyword_points. reflexivity.
Qed.

Lemma filteredSuggestions_sorted (value : string) :
  filteredSuggestions value
  = firstn 7 (sort (fun p q => phraseScore value q - phraseScore value p)
                   (filter (fun p => 0 <? phraseScore value p) AI_SUGGESTIONS)).
Proof.
  unfold filteredSuggestions. rewrite scoredSuggestions_phraseScore.
  rewrite filter_map_commute. cbn [score].
  rewrite (sort_map (fun p => {| suggestion := p; score := phraseScore value p |})
             (fun p q => phraseScore value q - phraseScore value p)) by reflexivity.
  rewrite map_map. cbn [suggestion]. now rewrite map_id.
Qed.

Lemma sort_rankedPhrases (value : string) :
  rankedPhrases value
    (sort (fun p q => phraseScore value q - phraseScore value p)
          (filter (fun p => 0 <? phraseScore value p) AI_SUGGESTIONS)).
Proof.
  unfold rankedPhrases. split; [| split].
  - apply (sort_perm (phraseScore value)).
  - apply (sort_sorted (phraseScore value)).
  - intros k. apply (sort_stable (phraseScore value)).
Qed.

(** The ranking is unique. *)
Lemma rankedPhrases_unique (value : string) (r1 r2 : list string) :
  rankedPhrases value r1 -> rankedPhrases value r2 -> r1 = r2.
Proof.
  intros (_ & S1 & F1) (_ & S2 & F2).
  apply (sorted_stable_unique (phraseScore value)); [exact S1 | exact S2 |].
  intros k. now rewrite F1, F2.
Qed.

(** *** The words of the query *)

Lemma isBlank_app (a b : string) : isBlank (a ++ b) = isBlank a && isBlank b.
Proof.
  induction a as [| c a IH]; simpl; [reflexivity |].
  now rewrite IH, andb_assoc.
Qed.

Lemma word_not_blank (w : string) :
  w <> "" -> noWhiteSpace w = true -> isBlank w = false.
Proof.
  destruct w as [| c w]; [intros H; now contradiction H |].
  simpl. intros _ H. apply andb_true_iff in H. destruct H as [H _].
  apply negb_true_iff in H. now rewrite H.
Qed.

Lemma Delimited_space (c : ascii) (s : string) (ws : list string) :
  isWhiteSpace c = true -> Delimited s ws -> Delimited (String c s) ws.
Proof.
  intros Hc [s0 Hb | b w rest ws0 Hb Hw Hn He Hr].
  - apply Delimited_blank. simpl. now rewrite Hc.
  - apply (Delimited_word (String c b) w rest ws0); try assumption.
    simpl. now rewrite Hc.
Qed.

(** The words of [split_ws]: its pieces that are not empty. *)
Lemma split_ws_from_inws (s : string) :
  filter (fun w => (0 <? String.length w)%nat) (split_ws_from true "" s)
  = filter (fun w => (0 <? String.length w)%nat) (split_ws_from false "" s).
Proof.
  destruct s as [| c s]; [reflexivity |].
  cbn [split_ws_from]. destruct (isWhiteSpace c); reflexivity.
Qed.

Lemma split_ws_from_Delimited (s cur : string) :
  noWhiteSpace cur = true ->
  Delimited (cur ++ s)
            (filter (fun w => (0 <? String.length w)%nat) (split_ws_from false cur s)).
Proof.
  revert cur. induction s as [| c s IH]; intros cur Hcur; cbn [split_ws_from].
  - rewrite string_app_nil_r. cbn [filter].
    destruct cur as [| x cur]; [now apply Delimited_blank |].
    cbn [String.length Nat.ltb Nat.leb].
    rewrite <- (string_app_nil_r (String x cur)) at 1.
    apply (Delimited_word "" (String x cur) "" []);
      [reflexivity | discriminate | exact Hcur | reflexivity |].
    now apply Delimited_blank.
  - destruct (isWhiteSpace c) eqn:Ec.
    + cbn [filter]. rewrite split_ws_from_inws.
      assert (Hrest : Delimited (String c s)
                (filter (fun w => (0 <? String.length w)%nat) (split_ws_from false "" s)))
        by (apply Delimited_space; [exact Ec | now apply (IH "")]).
      destruct cur as [| x cur]; [exact Hrest |].
      cbn [String.length Nat.ltb Nat.leb].
      apply (Delimited_word "" (String x cur) (String c s));
        [reflexivity | discriminate | exact Hcur | exact Ec | exact Hrest].
    + replace (cur ++ String c s) with ((cur ++ String c "") ++ s)
        by (now rewrite string_app_assoc).
      apply IH. rewrite noWhiteSpace_app, Hcur. simpl. now rewrite Ec.
Qed.

Lemma split_ws_Delimited (s : string) :
  Delimited s (filter (fun w => (0 <? String.length w)%nat) (split_ws s)).
Proof. now apply (split_ws_from_Delimited s ""). Qed.

(** The words of a string are determined. *)
Lemma word_split_unique (w w' rest rest' : string) :
  noWhiteSpace w = true -> noWhiteSpace w' = true ->
  wordEnds rest = true -> wordEnds rest' = true ->
  w ++ rest = w' ++ rest' -> w = w' /\ rest = rest'.
Proof.
  revert w'. induction w as [| c w IH]; intros [| c' w'] Hw Hw' Hr Hr' E; simpl in *.
  - now split.
  - subst rest. simpl in Hr. apply andb_true_iff in Hw'. destruct Hw' as [H _].
    rewrite Hr in H. discriminate H.
  - subst rest'. simpl in Hr'. apply andb_true_iff in Hw. destruct Hw as [H _].
    rewrite Hr' in H. discriminate H.
  - injection E as -> E.
    apply andb_true_iff in Hw. apply andb_true_iff in Hw'.
    destruct (IH w' (proj2 Hw) (proj2 Hw') Hr Hr' E) as [-> ->]. now split.
Qed.

Lemma blank_prefix_unique (b b' : string) (c c' : ascii) (x x' : string) :
  isBlank b = true -> isBlank b' = true ->
  isWhiteSpace c = false -> isWhiteSpace c' = false ->
  b ++ String c x = b' ++ String c' x' -> b = b' /\ String c x = String c' x'.
Proof.
  revert b'. induction b as [| a b IH]; intros [| a' b'] Hb Hb' Hc Hc' E; simpl in *.
  - now split.
  - injection E as -> _. apply andb_true_iff in Hb'. destruct Hb' as [H _].
    rewrite Hc in H. discriminate H.
  - injection E as -> _. apply andb_true_iff in Hb. destruct Hb as [H _].
    rewrite Hc' in H. discriminate H.
  - injection E as -> E.
    apply andb_true_iff in Hb. apply andb_true_iff in Hb'.
    destruct (IH b' (proj2 Hb) (proj2 Hb') Hc Hc' E) as [-> E']. now split.
Qed.

Lemma Delimited_unique (s : string) (ws1 ws2 : list string) :
  Delimited s ws1 -> Delimited s ws2 -> ws1 = ws2.
Proof.
  intros H1. revert ws2.
  induction H1 as [s Hb | b w rest ws Hb Hw Hn He Hr IH]; intros ws2 H2.
  - inversion H2 as [s0 Hb0 | b0 w0 rest0 ws0 Hb0 Hw0 Hn0 He0 Hr0 E]; [reflexivity |].
    subst s. rewrite !isBlank_app, (word_not_blank w0 Hw0 Hn0) in Hb.
    rewrite andb_false_r in Hb. discriminate Hb.
  - inversion H2 as [s0 Hb0 E | b0 w0 rest0 ws0 Hb0 Hw0 Hn0 He0 Hr0 E].
    + rewrite !isBlank_app, (word_not_blank w Hw Hn), andb_false_r in Hb0.
      discriminate Hb0.
    + destruct w as [| c w]; [now contradiction Hw |].
      destruct w0 as [| c0 w0]; [now contradiction Hw0 |].
      assert (Hc : isWhiteSpace c = false).
      { simpl in Hn. apply andb_true_iff in Hn. destruct Hn as [H _].
        now apply negb_true_iff in H. }
      assert (Hc0 : isWhiteSpace c0 = false).
      { simpl in Hn0. apply andb_true_iff in Hn0. destruct Hn0 as [H _].
        now apply negb_true_iff in H. }
      cbn [append] in E.
      destruct (blank_prefix_unique b0 b c0 c _ _ Hb0 Hb Hc0 Hc E) as [_ E'].
      destruct (word_split_unique (String c0 w0) (String c w) rest0 rest
                  Hn0 Hn He0 He E') as [Ew Er].
      subst rest0. rewrite Ew. f_equal. now apply IH.
Qed.

Lemma filter_filter_and {A : Type} (f g : A -> bool) (l : list A) :
  filter f (filter g l) = filter (fun x => g x && f x) l.
Proof.
  induction l as [| x l IH]; [reflexivity |].
  cbn [filter]. destruct (g x); cbn [filter andb]; now rewrite IH.
Qed.

(** The score of the code is the score by the words of the query. *)
Lemma phraseScore_wordScore (value phrase : string) :
  phraseScore value phrase
  = wordScore (filter (fun w => (0 <? String.length w)%nat)
                      (split_ws (toLowerCase value)))
              value phrase.
Proof.
  unfold phraseScore, wordScore, keywords. do 3 f_equal.
  rewrite !filter_filter_and. apply (f_equal (@List.length string)).
  apply filter_ext. intros w.
  destruct (String.length w) as [| [| [| n]]]; reflexivity.
Qed.

Lemma rankedBy_ext (f g : string -> Z) (ranked : list string) :
  (forall p, f p = g p) -> rankedBy f ranked -> rankedBy g ranked.
Proof.
  intros E. unfold rankedBy.
  rewrite (filter_ext (fun p => 0 <? f p) (fun p => 0 <? g p))
    by (intros p; now rewrite E).
  intros (Hp & Hs & Hk). split; [exact Hp |]. split.
  - eapply StronglySorted_ind with (P := StronglySorted (fun p q => g q <= g p));
      [constructor | | exact Hs].
    intros a l _ IH Ha. constructor; [exact IH |].
    eapply Forall_impl; [| exact Ha]. cbn. intros q. now rewrite !E.
  - intros k.
    rewrite !(filter_ext (fun p => g p =? k) (fun p => f p =? k))
      by (intros p; now rewrite E).
    apply Hk.
Qed.

(** Words and scores determine the ranking. *)
Lemma rankedBy_unique (score : string -> Z) (r1 r2 : list string) :
  rankedBy score r1 -> rankedBy score r2 -> r1 = r2.
Proof.
  intros (_ & S1 & F1) (_ & S2 & F2).
  apply (sorted_stable_unique score); [exact S1 | exact S2 |].
  intros k. now rewrite F1, F2.
Qed.

(** C7: in command mode the suggestions are the command entries whose
    token contains the query, case-insensitively, all of them and in
    the order of the mapping; otherwise, for a query that is not blank,
    they are the first 7 of the phrases of positive score ranked by
    descending score with ties in list order, where the score is 10 for
    the whole lowercase query plus 5 for each white-space-delimited
    word of the lowercase query that has more than 2 characters and
    occurs in the lowercase phrase; for a blank query there are none. *)
Theorem newSuggestions_spec (value : string) :
  exists words ranked : list string,
    Delimited (toLowerCase value) words /\
    rankedBy (wordScore words value) ranked /\
    newSuggestions value =
      if startsWith value "/" then
        map (fun entry => CommandEntry (fst entry) (snd entry))
            (filter (fun entry => includes (toLowerCase (fst entry)) (toLowerCase value))
                    COMMAND_SHORTCUTS)
      else if isBlank value then []
      else map Phrase (firstn 7 ranked).
Proof.
  eexists _, _. split; [apply split_ws_Delimited |]. split.
  - apply (rankedBy_ext (phraseScore value)); [apply phraseScore_wordScore |].
    exact (sort_rankedPhrases value).
  - unfold newSuggestions, matchedCommands.
    destruct (startsWith value "/"); [reflexivity |].
    rewrite length_trim_pos.
    destruct (isBlank value); cbn [negb]; [reflexivity |].
    now rewrite filteredSuggestions_sorted.
Qed.

(** ** The reducer and the handlers *)

Lemma dispatch_state (now : string) (a : Action) (d : Dashboard) :
  state (dispatch now a d) = queryReducer now (state d) a.
Proof. reflexivity. Qed.

Lemma handleQuerySubmitWith_blank (synthesize : string -> option Results)
    (now : string) (d : Dashboard) :
  isBlank (currentQuery (state d)) = true ->
  handleQuerySubmitWith synthesize now d
  = dispatch now (PROCESS_QUERY_FAILURE "Query cannot be empty") d.
Proof.
  intros Hb. unfold handleQuerySubmitWith.
  now rewrite truthy_trim, Hb.
Qed.

(** A synthesizer that throws leads to the failure action as well. *)
Lemma handleQuerySubmitWith_fault (synthesize : string -> option Results)
    (now : string) (d : Dashboard) :
  isBlank (currentQuery (state d)) = false ->
  synthesize (currentQuery (state d)) = None ->
  handleQuerySubmitWith synthesize now d
  = dispatch now (PROCESS_QUERY_FAILURE "Unable to process query. Please try again.")
      (dispatch now SUBMIT_QUERY d).
Proof.
  intros Hb Hs. unfold handleQuerySubmitWith.
  now rewrite truthy_trim, Hb, Hs.
Qed.

(** C8: a submit on a blank query leaves [isProcessing] false, sets
    the error to "Query cannot be empty" and schedules nothing,
    whatever the synthesizer: it is not called. *)
Theorem blank_submit_rejected (synthesize : string -> option Results)
    (now : string) (d : Dashboard) :
  isBlank (currentQuery (state d)) = true ->
  isProcessing (state (handleQuerySubmitWith synthesize now d)) = false
  /\ error (state (handleQuerySubmitWith synthesize now d)) = Some "Query cannot be empty"
  /\ timers (handleQuerySubmitWith synthesize now d) = timers d.
Proof.
  intros Hb. rewrite handleQuerySubmitWith_blank by exact Hb.
  repeat split.
Qed.

Lemma blank_submit_rejected_witness :
  isBlank (currentQuery (state blankTyped)) = true
  /\ isProcessing (state (handleQuerySubmit "10:00:04" blankTyped)) = false
  /\ error (state (handleQuerySubmit "10:00:04" blankTyped)) = Some "Query cannot be empty"
  /\ timers (handleQuerySubmit "10:00:04" blankTyped) = timers blankTyped.
Proof.
  split; [reflexivity |].
  apply (blank_submit_rejected
           (fun query => Some (generateMockResults query)) "10:00:04" blankTyped).
  reflexivity.
Defined.

(** C10: a submit on a blank query is the failure transition, the one
    a synthesizer fault takes, and that transition sets
    [currentResults] to null: the displayed result is cleared. *)
Theorem blank_submit_clears_results (now : string) (d : Dashboard) :
  isBlank (currentQuery (state d)) = true ->
  state (handleQuerySubmit now d)
  = queryReducer now (state d) (PROCESS_QUERY_FAILURE "Query cannot be empty")
  /\ currentResults (state (handleQuerySubmit now d)) = None.
Proof.
  intros Hb. unfold handleQuerySubmit.
  rewrite handleQuerySubmitWith_blank by exact Hb.
  split; reflexivity.
Qed.

Lemma blank_submit_clears_results_witness :
  isBlank (currentQuery (state blankTyped)) = true
  /\ currentResults (state blankTyped) = Some (generateMockResults "revenue")
  /\ state (handleQuerySubmit "10:00:04" blankTyped)
     = queryReducer "10:00:04" (state blankTyped)
         (PROCESS_QUERY_FAILURE "Query cannot be empty")
  /\ currentResults (state (handleQuerySubmit "10:00:04" blankTyped)) = None.
Proof.
  split; [reflexivity |]. split; [reflexivity |].
  apply (blank_submit_clears_results "10:00:04" blankTyped).
  reflexivity.
Defined.

(** C9: Clear History empties the history, the result and the error,
    and leaves the query text and the processing flag as they were. *)
Theorem clearHistory_frame (now : string) (d : Dashboard) :
  queries (state (clearHistory now d)) = []
  /\ currentResults (state (clearHistory now d)) = None
  /\ error (state (clearHistory now d)) = None
  /\ currentQuery (state (clearHistory now d)) = currentQuery (state d)
  /\ isProcessing (state (clearHistory now d)) = isProcessing (state d).
Proof. repeat split. Qed.

(** C1, as the code has it: Rerun shows the stored result without a
    new synthesis, and the history grows by one entry that holds this
    result; the earlier entries stay. *)
Theorem rerun_appends_stored_result (now : string) (r : QueryItem) (d : Dashboard) :
  currentResults (state (rerun now r d)) = Some (results r)
  /\ timers (rerun now r d) = timers d
  /\ exists item,
       queries (state (rerun now r d)) = (queries (state d) ++ [item])%list
       /\ results item = results r.
Proof.
  split; [reflexivity |]. split; [reflexivity |].
  eexists. split; reflexivity.
Qed.

(** C1 fails as stated: after one query, Rerun on its record makes the
    history longer. *)
Lemma rerun_changes_history :
  In firstRecord (queries (state (run oneQuery initialDashboard)))
  /\ queries (state (rerun "10:00:03" firstRecord (run oneQuery initialDashboard)))
     <> queries (state (run oneQuery initialDashboard)).
Proof.
  split.
  - left. reflexivity.
  - intros H. apply (f_equal (@List.length QueryItem)) in H.
    vm_compute in H. discriminate H.
Qed.

(** The record appended when a pending submission resolves carries the
    query text of that moment. *)
Lemma timeout_appends (now : string) (d : Dashboard) (r : Results) (rest : list Results) :
  timers d = r :: rest ->
  queries (state (timeout now d))
  = (queries (state d)
     ++ [ {| query := currentQuery (state d); timestamp := now; results := r |} ])%list
  /\ timers (timeout now d) = rest.
Proof.
  intros Ht. unfold timeout. rewrite Ht. split; reflexivity.
Qed.

(** X23: a submission of [q] that resolves after the text became [t]
    enters the history under [t], with the result made for [q]. *)
Lemma edited_while_pending (now1 now2 now3 t : string) (d : Dashboard) :
  isBlank (currentQuery (state d)) = false ->
  timers d = [] ->
  queries (state (timeout now3 (handleQueryChange now2 t (handleQuerySubmit now1 d))))
  = (queries (state d)
     ++ [ {| query := t;
             timestamp := now3;
             results := generateMockResults (currentQuery (state d)) |} ])%list.
Proof.
  intros Hb Ht.
  unfold handleQuerySubmit, handleQuerySubmitWith.
  rewrite truthy_trim, Hb. cbn [negb].
  unfold timeout, handleQueryChange. cbn [timers dispatch]. rewrite Ht.
  reflexivity.
Qed.

(** C5 at a session where the text is edited while the submission is
    pending: "revenue" was submitted, and the record that enters the
    history carries "customers" with the result made for "revenue". *)
Theorem record_carries_later_text :
  queries (state (run editedWhilePending initialDashboard))
  = [ {| query := "customers";
         timestamp := "10:00:02";
         results := generateMockResults "revenue" |} ].
Proof. reflexivity. Qed.

(** One action keeps: as long as the query text is not empty,
    [suggestionMode] tells whether it starts with the command prefix. *)
Lemma suggestionMode_nonempty_step (now : string) (s : State) (a : Action) :
  (currentQuery s <> "" -> suggestionMode s = startsWith (currentQuery s) "/") ->
  currentQuery (queryReducer now s a) <> "" ->
  suggestionMode (queryReducer now s a)
  = startsWith (currentQuery (queryReducer now s a)) "/".
Proof.
  intros Hs. destruct a; cbn [queryReducer currentQuery suggestionMode];
    try exact Hs; try reflexivity.
  intros H. now contradiction H.
Qed.

(** X22: after any actions, as long as the query text is not empty,
    [suggestionMode] tells whether it starts with the command prefix. *)
Lemma suggestionMode_nonempty (acts : list (string * Action)) :
  currentQuery (reduce acts initialState) <> "" ->
  suggestionMode (reduce acts initialState)
  = startsWith (currentQuery (reduce acts initialState)) "/".
Proof.
  unfold reduce.
  assert (G : forall s,
             (currentQuery s <> "" -> suggestionMode s = startsWith (currentQuery s) "/") ->
             let s' := fold_left (fun s a => queryReducer (fst a) s (snd a)) acts s in
             currentQuery s' <> "" -> suggestionMode s' = startsWith (currentQuery s') "/").
  { induction acts as [| a acts IH]; intros s Hs; [exact Hs |].
    cbn [fold_left]. apply IH. now apply suggestionMode_nonempty_step. }
  apply G. intros H. now contradiction H.
Qed.


(** ** The growth rate *)

Lemma calculateGrowthRate_short (rows : list (option DataPoint)) :
  (List.length rows < 2)%nat -> calculateGrowthRate (Some rows) = "N/A".
Proof.
  intros H. unfold calculateGrowthRate.
  apply Nat.ltb_lt in H. now rewrite H.
Qed.

Lemma calculateGrowthRate_rows (rows : list (option DataPoint)) (first last : DataPoint) :
  (2 <= List.length rows)%nat ->
  nth 0 rows None = Some first ->
  nth (List.length rows - 1) rows None = Some last ->
  calculateGrowthRate (Some rows)
  = toFixed (mul (div (sub (revenue last) (revenue first)) (revenue first)) (lit 100)) 2.
Proof.
  intros H Hf Hl. unfold calculateGrowthRate.
  apply Nat.ltb_ge in H. now rewrite H, Hf, Hl.
Qed.

(** A row that is null makes the read of its revenue throw. *)
Lemma calculateGrowthRate_null_row (rows : list (option DataPoint)) :
  (2 <= List.length rows)%nat ->
  nth 0 rows None = None \/ nth (List.length rows - 1) rows None = None ->
  calculateGrowthRate (Some rows) = "Unavailable".
Proof.
  intros H Hn. unfold calculateGrowthRate.
  apply Nat.ltb_ge in H. rewrite H.
  destruct Hn as [Hn | Hn]; rewrite Hn; [reflexivity |].
  now destruct (nth 0 rows None).
Qed.

(** X18: the division by a zero first revenue does not throw: the
    result is an infinity or NaN, printed as such. *)
Lemma zero_first_revenue_not_caught (rows : list (option DataPoint))
    (first last : DataPoint) (s : bool) :
  (2 <= List.length rows)%nat ->
  nth 0 rows None = Some first ->
  nth (List.length rows - 1) rows None = Some last ->
  revenue first = S754_zero s ->
  In (calculateGrowthRate (Some rows)) ["Infinity"; "-Infinity"; "NaN"].
Proof.
  intros H Hf Hl Hz.
  rewrite (calculateGrowthRate_rows rows first last H Hf Hl), Hz.
  destruct (revenue last) as [sl | sl | | sl m e]; destruct s; try destruct sl;
    vm_compute; tauto.
Qed.

(** Two rows whose first revenue is 0 give "Infinity". *)
Theorem calculateGrowthRate_zeroFirst :
  calculateGrowthRate (Some zeroFirst) = "Infinity".
Proof. reflexivity. Qed.

(** ** The insight rules *)

(** The first rule whose word occurs in the query, as given, decides;
    the case of the letters counts. *)
Lemma generateInsights_first_match (query : string) (r : InsightInput) :
  generateInsights query r =
    if includes query "revenue" then revenueInsight (in_averageGrowth r)
    else if includes query "customer" then customerInsight (in_totalCustomers r)
    else if includes query "product" then
      "Product portfolio demonstrates consistent performance"
    else "General performance remains stable".
Proof.
  unfold generateInsights, insightRules. cbn [find condition].
  destruct (includes query "revenue"); [reflexivity |].
  destruct (includes query "customer"); [reflexivity |].
  destruct (includes query "product"); reflexivity.
Qed.

(** C3 at a query with a capital: "Revenue" contains "revenue" when
    case is ignored, and the fallback sentence comes out. *)
Theorem generateInsights_capital_revenue :
  includes (toLowerCase "Revenue forecast for next quarter") "revenue" = true
  /\ generateInsights "Revenue forecast for next quarter" mockInsightInput
     = "General performance remains stable"
  /\ revenueInsight (in_averageGrowth mockInsightInput) = "Revenue increased by 51.11%".
Proof. repeat split. Qed.

(** ** The mock synthesizer *)

(** C6: whatever the query, the result has the same four rows, the
    totals 2260000 and 5700, the growth rate "51.11" and exactly one
    insight. *)
Theorem generateMockResults_fixed (query : string) :
  data (generateMockResults query)
  = [ mkDataPoint "Q1 2023" (lit 450000) (lit 1200) (lit 50);
      mkDataPoint "Q2 2023" (lit 520000) (lit 1350) (lit 55);
      mkDataPoint "Q3 2023" (lit 610000) (lit 1500) (lit 60);
      mkDataPoint "Q4 2023" (lit 680000) (lit 1650) (lit 65) ]
  /\ totalRevenue (summary (generateMockResults query)) = lit 2260000
  /\ totalCustomers (summary (generateMockResults query)) = lit 5700
  /\ averageGrowth (summary (generateMockResults query)) = "51.11"
  /\ List.length (insights (generateMockResults query)) = 1%nat.
Proof. repeat split. Qed.

(** ** The scenarios of the specification *)

Example top_revenue_drivers :
  insights (generateMockResults "Top revenue drivers") = ["Revenue increased by 51.11%"].
Proof. reflexivity. Qed.

Example customer_churn :
  insights (generateMockResults "customer churn") = ["Customer base shows strong growth"].
Proof. reflexivity. Qed.

Example command_reven :
  newSuggestions "/reven" = [CommandEntry "/revenue" "Detailed revenue breakdown"].
Proof. reflexivity. Qed.

Example phrases_revenue_growth :
  newSuggestions "Revenue growth"
  = map Phrase
      [ "Year-over-year revenue growth analysis";
        "Monthly revenue breakdown by product category";
        "Revenue forecast for next quarter";
        "Impact of pricing changes on revenue";
        "Revenue attribution by marketing channel";
        "New vs returning customer revenue";
        "Product revenue trends" ].
Proof. reflexivity. Qed.

(** ** The page: suggestions and their selection *)

Lemma newSuggestions_kind (value : string) :
  Forall (fun s => isCommandEntry s = startsWith value "/") (newSuggestions value).
Proof.
  unfold newSuggestions. destruct (startsWith value "/").
  - apply Forall_forall. intros s Hs. apply in_map_iff in Hs.
    destruct Hs as [entry [<- _]]. reflexivity.
  - destruct (0 <? String.length (trim value))%nat; [| constructor].
    apply Forall_forall. intros s Hs. apply in_map_iff in Hs.
    destruct Hs as [text [<- _]]. reflexivity.
Qed.

Lemma handleQueryChange_fit (now value : string) (d : Dashboard) :
  suggestionsFit (handleQueryChange now value d).
Proof. apply newSuggestions_kind. Qed.

(** The gestures of the session other than typing leave the
    suggestions and [suggestionMode] alone. *)
Lemma step_suggestions (d : Dashboard) (now : string) (e : Event) :
  (forall value, e <> Input value) ->
  suggestions (step d (now, e)) = suggestions d
  /\ showSuggestions (step d (now, e)) = showSuggestions d
  /\ suggestionMode (state (step d (now, e))) = suggestionMode (state d).
Proof.
  intros Hne. destruct e as [value | | | index |]; cbn [step].
  - now contradiction (Hne value).
  - destruct (truthy (currentQuery (state d))); [| repeat split].
    unfold handleQuerySubmit, handleQuerySubmitWith.
    destruct (negb (truthy (trim (currentQuery (state d))))); repeat split.
  - repeat split.
  - destruct (nth_error (queries (state d)) index); repeat split.
  - unfold timeout. destruct (timers d); repeat split.
Qed.

Lemma step_fit (d : Dashboard) (ev : string * Event) :
  suggestionsFit d -> suggestionsFit (step d ev).
Proof.
  intros Hd. destruct ev as [now e].
  destruct e as [value | | | index |] eqn:E;
    try (destruct (step_suggestions d now e) as (Hs & _ & Hm);
         [subst e; discriminate |];
         subst e; unfold suggestionsFit; rewrite Hs, Hm; exact Hd).
  apply handleQueryChange_fit.
Qed.

Lemma handleSuggestionSelect_fit (now : string) (s : Suggestion) (d d' : Dashboard) :
  handleSuggestionSelect now s d = Some d' -> suggestionsFit d'.
Proof.
  unfold handleSuggestionSelect.
  destruct (suggestionMode (state d)); destruct s as [cmd desc | [| c text]];
    intros H; try discriminate H; injection H as <-; constructor.
Qed.

Lemma handleClickOutside_fit (outside : bool) (d : Dashboard) :
  suggestionsFit d -> suggestionsFit (handleClickOutside outside d).
Proof.
  intros Hd. unfold handleClickOutside.
  destruct (suggestionContainerShown d && outside); [constructor | exact Hd].
Qed.

Lemma uiStep_fit (d d' : Dashboard) (g : string * Gesture) :
  suggestionsFit d -> uiStep d g = Some d' -> suggestionsFit d'.
Proof.
  intros Hd. destruct g as [now [e | index | outside]]; cbn [uiStep].
  - intros H. injection H as <-. exact (step_fit d (now, e) Hd).
  - destruct (suggestionContainerShown d); [| intros H; now injection H as <-].
    destruct (nth_error (suggestions d) index) as [s |];
      [apply handleSuggestionSelect_fit | intros H; now injection H as <-].
  - intros H. injection H as <-. now apply handleClickOutside_fit.
Qed.

(** With fitting suggestions, choosing one of them does not throw. *)
Lemma handleSuggestionSelect_defined (now : string) (s : Suggestion) (d : Dashboard) :
  suggestionsFit d -> In s (suggestions d) ->
  handleSuggestionSelect now s d
  = Some {| state := queryReducer now (state d) (SET_CURRENT_QUERY (suggestionText s));
            suggestions := [];
            showSuggestions := false;
            timers := timers d |}.
Proof.
  intros Hd Hin. unfold suggestionsFit in Hd. rewrite Forall_forall in Hd.
  specialize (Hd s Hin). unfold handleSuggestionSelect.
  destruct (suggestionMode (state d)); destruct s as [cmd desc | text];
    try discriminate Hd; reflexivity.
Qed.

Lemma uiStep_defined (d : Dashboard) (g : string * Gesture) :
  suggestionsFit d -> uiStep d g <> None.
Proof.
  intros Hd. destruct g as [now [e | index | outside]]; cbn [uiStep];
    try discriminate.
  destruct (suggestionContainerShown d); [| discriminate].
  destruct (nth_error (suggestions d) index) as [s |] eqn:E; [| discriminate].
  rewrite (handleSuggestionSelect_defined now s d Hd (nth_error_In _ _ E)).
  discriminate.
Qed.

(** An invariant of the gestures holds after any run of them. *)
Lemma uiRun_invariant (P : Dashboard -> Prop) :
  (forall d g d', P d -> uiStep d g = Some d' -> P d') ->
  forall gs d d', P d -> uiRun gs d = Some d' -> P d'.
Proof.
  intros Hstep. induction gs as [| g gs IH]; intros d d' Hd; cbn [uiRun].
  - intros H. now injection H as <-.
  - destruct (uiStep d g) as [d1 |] eqn:E; [| discriminate].
    apply IH. now apply (Hstep d g d1).
Qed.

Lemma uiRun_fit (gs : list (string * Gesture)) (d d' : Dashboard) :
  suggestionsFit d -> uiRun gs d = Some d' -> suggestionsFit d'.
Proof.
  apply (uiRun_invariant suggestionsFit). intros d0 g d1. apply uiStep_fit.
Qed.

Lemma uiRun_defined (gs : list (string * Gesture)) (d : Dashboard) :
  suggestionsFit d -> exists d', uiRun gs d = Some d'.
Proof.
  revert d. induction gs as [| g gs IH]; intros d Hd; cbn [uiRun]; [eauto |].
  destruct (uiStep d g) as [d1 |] eqn:E.
  - apply IH. now apply (uiStep_fit d d1 g).
  - now contradiction (uiStep_defined d g Hd).
Qed.

Lemma initialDashboard_fit : suggestionsFit initialDashboard.
Proof. constructor. Qed.

(** X1: whatever the user does, no handler throws: a suggestion that
    can be clicked is of the kind that [handleSuggestionSelect]
    expects. *)
Theorem page_never_throws (gs : list (string * Gesture)) :
  exists d, uiRun gs initialDashboard = Some d.
Proof. apply uiRun_defined. apply initialDashboard_fit. Qed.

(** X2: the suggestions held are command entries when
    [suggestionMode] is set and phrases when it is not, also after a
    submission cleared the text. *)
Theorem suggestions_match_mode (gs : list (string * Gesture)) (d : Dashboard)
    (s : Suggestion) :
  uiRun gs initialDashboard = Some d ->
  In s (suggestions d) ->
  isCommandEntry s = suggestionMode (state d).
Proof.
  intros Hrun Hin.
  assert (Hfit : suggestionsFit d)
    by (apply (uiRun_fit gs initialDashboard d initialDashboard_fit Hrun)).
  unfold suggestionsFit in Hfit. rewrite Forall_forall in Hfit. now apply Hfit.
Qed.

Lemma suggestions_match_mode_witness :
  uiRun pickCommand initialDashboard = Some (after pickCommand)
  /\ In (Phrase "Customer lifetime value analysis") (suggestions (after pickCommand))
  /\ isCommandEntry (Phrase "Customer lifetime value analysis")
     = suggestionMode (state (after pickCommand)).
Proof.
  split; [reflexivity |]. split; [left; reflexivity |].
  apply (suggestions_match_mode pickCommand (after pickCommand)); [reflexivity |].
  left. reflexivity.
Defined.

Lemma step_shown (d : Dashboard) (ev : string * Event) :
  shownWhenPresent d -> shownWhenPresent (step d ev).
Proof.
  intros Hd. destruct ev as [now e].
  destruct e as [value | | | i |] eqn:E;
    try (destruct (step_suggestions d now e) as (Hs & Hh & _);
         [subst e; discriminate |];
         subst e; unfold shownWhenPresent; rewrite Hs, Hh; exact Hd).
  intros _. reflexivity.
Qed.

Lemma uiStep_shown (d d' : Dashboard) (g : string * Gesture) :
  shownWhenPresent d -> uiStep d g = Some d' -> shownWhenPresent d'.
Proof.
  intros Hd. destruct g as [now [e | index | outside]]; cbn [uiStep].
  - intros H. injection H as <-. exact (step_shown d (now, e) Hd).
  - destruct (suggestionContainerShown d); [| intros H; now injection H as <-].
    destruct (nth_error (suggestions d) index) as [s |];
      [| intros H; now injection H as <-].
    unfold handleSuggestionSelect.
    destruct (suggestionMode (state d)); destruct s as [cmd desc | [| c text]];
      intros H; try discriminate H; injection H as <-;
      intros Hne; now contradiction Hne.
  - intros H. injection H as <-. unfold handleClickOutside.
    destruct (suggestionContainerShown d && outside); [| exact Hd].
    intros Hne. now contradiction Hne.
Qed.

Lemma uiRun_shown (gs : list (string * Gesture)) (d : Dashboard) :
  uiRun gs initialDashboard = Some d -> shownWhenPresent d.
Proof.
  apply (uiRun_invariant shownWhenPresent).
  - intros d0 g d1. apply uiStep_shown.
  - intros Hne. now contradiction Hne.
Qed.

(** X3: a click on a suggestion puts its text (the token of a command,
    the phrase otherwise) into the input, clears the error, closes the
    list, and leaves the history and the result as they are. *)
Theorem select_fills_input (gs : list (string * Gesture)) (d : Dashboard)
    (now : string) (index : nat) (s : Suggestion) :
  uiRun gs initialDashboard = Some d ->
  nth_error (suggestions d) index = Some s ->
  exists d',
    uiStep d (now, SelectSuggestion index) = Some d'
    /\ currentQuery (state d') = suggestionText s
    /\ error (state d') = None
    /\ suggestions d' = []
    /\ showSuggestions d' = false
    /\ queries (state d') = queries (state d)
    /\ currentResults (state d') = currentResults (state d).
Proof.
  intros Hrun Hnth.
  assert (Hfit := uiRun_fit gs initialDashboard d initialDashboard_fit Hrun).
  assert (Hshown := uiRun_shown gs d Hrun).
  assert (Hin := nth_error_In _ _ Hnth).
  assert (Hne : suggestions d <> []) by (destruct (suggestions d); [easy | discriminate]).
  assert (Hlen : (0 <? List.length (suggestions d))%nat = true)
    by (destruct (suggestions d); [now contradiction Hne | reflexivity]).
  cbn [uiStep]. unfold suggestionContainerShown.
  rewrite (Hshown Hne), Hlen, Hnth. cbn [andb].
  rewrite (handleSuggestionSelect_defined now s d Hfit Hin).
  eexists. split; [reflexivity |]. repeat split.
Qed.

Lemma select_fills_input_witness :
  uiRun [("10:00:00", Session (Input "/re"))] initialDashboard
  = Some (handleQueryChange "10:00:00" "/re" initialDashboard)
  /\ nth_error (suggestions (handleQueryChange "10:00:00" "/re" initialDashboard)) 0
     = Some (CommandEntry "/revenue" "Detailed revenue breakdown")
  /\ exists d',
       uiStep (handleQueryChange "10:00:00" "/re" initialDashboard)
              ("10:00:01", SelectSuggestion 0) = Some d'
       /\ currentQuery (state d') = "/revenue"
       /\ error (state d') = None
       /\ suggestions d' = []
       /\ showSuggestions d' = false
       /\ queries (state d') = []
       /\ currentResults (state d') = None.
Proof.
  split; [reflexivity |]. split; [reflexivity |].
  apply (select_fills_input [("10:00:00", Session (Input "/re"))]
           (handleQueryChange "10:00:00" "/re" initialDashboard)
           "10:00:01" 0 (CommandEntry "/revenue" "Detailed revenue breakdown"));
    reflexivity.
Defined.

(** ** The page: the session state *)

Lemma step_transition (d : Dashboard) (now : string) (e : Event) :
  Transition d (step d (now, e)).
Proof.
  destruct e as [value | | | index |]; cbn [step].
  - now apply (T_set _ _ now value).
  - destruct (truthy (currentQuery (state d))); [| now apply T_same].
    unfold handleQuerySubmit, handleQuerySubmitWith.
    destruct (negb (truthy (trim (currentQuery (state d))))).
    + now apply (T_reject _ _ now).
    + now apply (T_submit _ _ now).
  - now apply (T_clear _ _ now).
  - destruct (nth_error (queries (state d)) index) as [item |] eqn:E.
    + apply (T_rerun _ _ now item); [exact (nth_error_In _ _ E) | reflexivity ..].
    + now apply T_same.
  - unfold timeout. destruct (timers d) as [| r rest] eqn:E.
    + apply T_same; [reflexivity | now rewrite E].
    + apply (T_resolve _ _ now r); [now rewrite E | reflexivity].
Qed.

Lemma uiStep_transition (d d' : Dashboard) (g : string * Gesture) :
  uiStep d g = Some d' -> Transition d d'.
Proof.
  destruct g as [now [e | index | outside]]; cbn [uiStep].
  - intros H. injection H as <-. exact (step_transition d now e).
  - destruct (suggestionContainerShown d); [| intros H; injection H as <-; now apply T_same].
    destruct (nth_error (suggestions d) index) as [s |];
      [| intros H; injection H as <-; now apply T_same].
    unfold handleSuggestionSelect.
    destruct (suggestionMode (state d)); destruct s as [cmd desc | text].
    + intros H. injection H as <-. now apply (T_set _ _ now cmd).
    + destruct text as [| c text]; [discriminate |].
      intros H. injection H as <-. now apply (T_set _ _ now (String c "")).
    + discriminate.
    + intros H. injection H as <-. now apply (T_set _ _ now text).
  - intros H. injection H as <-. unfold handleClickOutside.
    destruct (suggestionContainerShown d && outside); now apply T_same.
Qed.

Lemma transition_pending (d d' : Dashboard) :
  Transition d d' -> pendingWhileProcessing d -> pendingWhileProcessing d'.
Proof.
  unfold pendingWhileProcessing.
  intros [Hs Ht | now v Hs Ht | now Hs Ht | now Hs Ht | now Hs Ht
         | now item Hin Hs Ht | now r Ht Hs] Hd;
    rewrite Hs; cbn [queryReducer isProcessing]; try discriminate;
    try (rewrite Ht; exact Hd).
  intros _. rewrite Ht. intros H. apply app_eq_nil in H. destruct H as [_ H].
  discriminate H.
Qed.

Lemma transition_showsLast (d d' : Dashboard) :
  Transition d d' -> showsLast d -> showsLast d'.
Proof.
  unfold showsLast.
  intros [Hs Ht | now v Hs Ht | now Hs Ht | now Hs Ht | now Hs Ht
         | now item Hin Hs Ht | now r Ht Hs] Hd;
    rewrite Hs; cbn [queryReducer currentResults queries];
    try exact Hd; try discriminate.
  - intros r H. injection H as <-. eexists _, _. split; reflexivity.
  - intros r0 H. injection H as <-. eexists _, _. split; reflexivity.
Qed.

Lemma transition_error (d d' : Dashboard) :
  Transition d d' -> onlyEmptyQueryError d -> onlyEmptyQueryError d'.
Proof.
  unfold onlyEmptyQueryError.
  intros [Hs Ht | now v Hs Ht | now Hs Ht | now Hs Ht | now Hs Ht
         | now item Hin Hs Ht | now r Ht Hs] Hd;
    rewrite Hs; cbn [queryReducer error currentResults isProcessing];
    try exact Hd; try discriminate.
  intros e H. injection H as <-. repeat split.
Qed.

Lemma transition_mockOnly (d d' : Dashboard) :
  Transition d d' -> mockOnly d -> mockOnly d'.
Proof.
  unfold mockOnly.
  intros [Hs Ht | now v Hs Ht | now Hs Ht | now Hs Ht | now Hs Ht
         | now item Hin Hs Ht | now r Ht Hs] (Hq & Hp & Hc);
    rewrite Hs; cbn [queryReducer queries currentResults].
  - rewrite Ht. now repeat split.
  - rewrite Ht. now repeat split.
  - rewrite Ht. repeat split; [exact Hq | exact Hp | discriminate].
  - rewrite Ht. repeat split; [exact Hq | | exact Hc].
    apply Forall_app. split; [exact Hp |]. constructor; [| constructor].
    now exists (currentQuery (state d)).
  - rewrite Ht. repeat split; [constructor | exact Hp | discriminate].
  - rewrite Ht. assert (Hi := proj1 (Forall_forall _ _) Hq item Hin).
    repeat split; [| exact Hp | intros r H; now injection H as <-].
    apply Forall_app. split; [exact Hq |].
    constructor; [exact Hi | constructor].
  - rewrite Ht in Hp. apply Forall_cons_iff in Hp. destruct Hp as [Hr Hp].
    repeat split; [| exact Hp | intros r0 H; now injection H as <-].
    apply Forall_app. split; [exact Hq |]. constructor; [exact Hr | constructor].
Qed.

(** The synthesizer emits one of four sentences. *)
Lemma mock_insight_among_four (query : string) :
  exists sentence,
    insights (generateMockResults query) = [sentence] /\ In sentence mockInsights.
Proof.
  unfold generateMockResults. cbn [insights].
  unfold generateInsights, insightRules. cbn [find condition].
  destruct (includes query "revenue");
    [| destruct (includes query "customer");
       [| destruct (includes query "product")]];
    eexists; (split; [reflexivity |]); vm_compute; tauto.
Qed.

(** X4: while [isProcessing] is set a callback is pending, so the
    "Processing..." label never stays for good. *)
Theorem processing_has_pending_callback (gs : list (string * Gesture)) (d : Dashboard) :
  uiRun gs initialDashboard = Some d ->
  isProcessing (state d) = true ->
  timers d <> [].
Proof.
  intros Hrun.
  apply (uiRun_invariant pendingWhileProcessing) with (gs := gs) (d := initialDashboard).
  - intros d0 g d1 H0 Hstep.
    exact (transition_pending d0 d1 (uiStep_transition d0 d1 g Hstep) H0).
  - discriminate.
  - exact Hrun.
Qed.

Lemma processing_has_pending_callback_witness :
  uiRun submitted initialDashboard = Some (after submitted)
  /\ isProcessing (state (after submitted)) = true
  /\ timers (after submitted) <> [].
Proof.
  split; [reflexivity |]. split; [reflexivity |].
  apply (processing_has_pending_callback submitted (after submitted)); reflexivity.
Defined.

(** X5: every history entry holds a result of the synthesizer: the
    four fixed rows and exactly one insight, one of four sentences. *)
Theorem history_holds_mock_results (gs : list (string * Gesture)) (d : Dashboard)
    (item : QueryItem) :
  uiRun gs initialDashboard = Some d ->
  In item (queries (state d)) ->
  data (results item) = baseData
  /\ averageGrowth (summary (results item)) = "51.11"
  /\ exists sentence,
       insights (results item) = [sentence] /\ In sentence mockInsights.
Proof.
  intros Hrun Hin.
  assert (Hm : mockOnly d).
  { apply (uiRun_invariant mockOnly) with (gs := gs) (d := initialDashboard).
    - intros d0 g d1 H0 Hstep.
      exact (transition_mockOnly d0 d1 (uiStep_transition d0 d1 g Hstep) H0).
    - repeat split; [constructor | constructor | discriminate].
    - exact Hrun. }
  destruct Hm as (Hq & _ & _). rewrite Forall_forall in Hq.
  destruct (Hq item Hin) as [query ->].
  split; [reflexivity |]. split; [reflexivity |].
  apply mock_insight_among_four.
Qed.

Lemma history_holds_mock_results_witness :
  uiRun pickCommand initialDashboard = Some (after pickCommand)
  /\ In {| query := "/revenue"; timestamp := "10:00:03";
           results := generateMockResults "/revenue" |}
        (queries (state (after pickCommand)))
  /\ data (generateMockResults "/revenue") = baseData
  /\ averageGrowth (summary (generateMockResults "/revenue")) = "51.11"
  /\ exists sentence,
       insights (generateMockResults "/revenue") = [sentence]
       /\ In sentence mockInsights.
Proof.
  split; [reflexivity |]. split; [left; reflexivity |].
  apply (history_holds_mock_results pickCommand (after pickCommand)
           {| query := "/revenue"; timestamp := "10:00:03";
              results := generateMockResults "/revenue" |});
    [reflexivity | left; reflexivity].
Defined.

(** X6: the result on display, if any, is the result of the newest
    history entry. *)
Theorem display_is_newest_entry (gs : list (string * Gesture)) (d : Dashboard)
    (r : Results) :
  uiRun gs initialDashboard = Some d ->
  currentResults (state d) = Some r ->
  exists init item,
    queries (state d) = (init ++ [item])%list /\ results item = r.
Proof.
  intros Hrun.
  apply (uiRun_invariant showsLast) with (gs := gs) (d := initialDashboard).
  - intros d0 g d1 H0 Hstep.
    exact (transition_showsLast d0 d1 (uiStep_transition d0 d1 g Hstep) H0).
  - intros r0. discriminate.
  - exact Hrun.
Qed.

Lemma display_is_newest_entry_witness :
  uiRun pickCommand initialDashboard = Some (after pickCommand)
  /\ currentResults (state (after pickCommand)) = Some (generateMockResults "/revenue")
  /\ exists init item,
       queries (state (after pickCommand)) = (init ++ [item])%list
       /\ results item = generateMockResults "/revenue".
Proof.
  split; [reflexivity |]. split; [reflexivity |].
  apply (display_is_newest_entry pickCommand (after pickCommand)); reflexivity.
Defined.

(** X7: the only error the page ever shows is "Query cannot be empty";
    while it shows there is no result on display and nothing is in
    progress.  The message of the [catch] branch is never shown. *)
Theorem only_empty_query_error (gs : list (string * Gesture)) (d : Dashboard)
    (e : string) :
  uiRun gs initialDashboard = Some d ->
  error (state d) = Some e ->
  e = "Query cannot be empty"
  /\ currentResults (state d) = None
  /\ isProcessing (state d) = false.
Proof.
  intros Hrun.
  apply (uiRun_invariant onlyEmptyQueryError) with (gs := gs) (d := initialDashboard).
  - intros d0 g d1 H0 Hstep.
    exact (transition_error d0 d1 (uiStep_transition d0 d1 g Hstep) H0).
  - intros e0. discriminate.
  - exact Hrun.
Qed.

Lemma only_empty_query_error_witness :
  uiRun blankSubmitted initialDashboard = Some (after blankSubmitted)
  /\ error (state (after blankSubmitted)) = Some "Query cannot be empty"
  /\ "Query cannot be empty" = "Query cannot be empty"
  /\ currentResults (state (after blankSubmitted)) = None
  /\ isProcessing (state (after blankSubmitted)) = false.
Proof.
  split; [reflexivity |]. split; [reflexivity |].
  apply (only_empty_query_error blankSubmitted (after blankSubmitted)); reflexivity.
Defined.

(** ** The page: the history *)

Lemma step_history (d : Dashboard) (now : string) (e : Event) :
  e <> ClickClearHistory ->
  exists added, queries (state (step d (now, e))) = (queries (state d) ++ added)%list.
Proof.
  intros Hne. destruct e as [value | | | index |]; cbn [step].
  - exists []. cbn. now rewrite app_nil_r.
  - exists []. rewrite app_nil_r.
    destruct (truthy (currentQuery (state d))); [| reflexivity].
    unfold handleQuerySubmit, handleQuerySubmitWith.
    now destruct (negb (truthy (trim (currentQuery (state d))))).
  - now contradiction Hne.
  - destruct (nth_error (queries (state d)) index) as [item |].
    + eexists [_]. reflexivity.
    + exists []. now rewrite app_nil_r.
  - unfold timeout. destruct (timers d) as [| r rest].
    + exists []. now rewrite app_nil_r.
    + eexists [_]. reflexivity.
Qed.

Lemma uiStep_history (d d' : Dashboard) (g : string * Gesture) :
  isClear g = false -> uiStep d g = Some d' ->
  exists added, queries (state d') = (queries (state d) ++ added)%list.
Proof.
  destruct g as [now [e | index | outside]]; cbn [uiStep isClear snd].
  - intros Hc H. injection H as <-. apply (step_history d now e).
    intros ->. discriminate Hc.
  - intros _ H.
    assert (Hq : queries (state d') = queries (state d)).
    { destruct (suggestionContainerShown d); [| now injection H as <-].
      destruct (nth_error (suggestions d) index) as [s |]; [| now injection H as <-].
      unfold handleSuggestionSelect in H.
      destruct (suggestionMode (state d)); destruct s as [cmd desc | [| c text]];
        try discriminate H; now injection H as <-. }
    exists []. now rewrite app_nil_r.
  - intros _ H. injection H as <-. exists []. rewrite app_nil_r.
    unfold handleClickOutside. now destruct (suggestionContainerShown d && outside).
Qed.

(** X8: the history is append-only: as long as Clear History is not
    clicked, whatever else happens keeps the entries and their order
    and only adds at the end. *)
Theorem history_append_only (gs : list (string * Gesture)) (d d' : Dashboard) :
  forallb (fun g => negb (isClear g)) gs = true ->
  uiRun gs d = Some d' ->
  exists added, queries (state d') = (queries (state d) ++ added)%list.
Proof.
  revert d. induction gs as [| g gs IH]; intros d Hc; cbn [uiRun].
  - intros H. injection H as <-. exists []. now rewrite app_nil_r.
  - cbn [forallb] in Hc. apply andb_true_iff in Hc. destruct Hc as [Hg Hc].
    apply negb_true_iff in Hg.
    destruct (uiStep d g) as [d1 |] eqn:E; [| discriminate].
    intros H. destruct (uiStep_history d d1 g Hg E) as [a1 H1].
    destruct (IH d1 Hc H) as [a2 H2].
    exists (a1 ++ a2)%list. now rewrite H2, H1, app_assoc.
Qed.

Lemma history_append_only_witness :
  forallb (fun g => negb (isClear g)) secondQuery = true
  /\ uiRun secondQuery (after pickCommand)
     = Some (proceed (after pickCommand) secondQuery)
  /\ map query (queries (state (after pickCommand))) = ["/revenue"]
  /\ map query (queries (state (proceed (after pickCommand) secondQuery)))
     = ["/revenue"; "customer value"; ""]
  /\ exists added,
       queries (state (proceed (after pickCommand) secondQuery))
       = (queries (state (after pickCommand)) ++ added)%list.
Proof.
  split; [reflexivity |]. split; [reflexivity |].
  split; [reflexivity |]. split; [reflexivity |].
  apply (history_append_only secondQuery (after pickCommand)
           (proceed (after pickCommand) secondQuery));
    reflexivity.
Defined.

Lemma handleQuerySubmit_accepts (now : string) (d : Dashboard) :
  isBlank (currentQuery (state d)) = false ->
  handleQuerySubmit now d
  = {| state := queryReducer now (state d) SUBMIT_QUERY;
       suggestions := suggestions d;
       showSuggestions := showSuggestions d;
       timers := (timers d ++ [generateMockResults (currentQuery (state d))])%list |}.
Proof.
  intros Hb. unfold handleQuerySubmit, handleQuerySubmitWith.
  rewrite truthy_trim, Hb. reflexivity.
Qed.

(** X9: a submission followed by its callback records the query with
    the result made for it, shows that result, empties the input and
    ends the processing. *)
Theorem submit_then_resolve (now1 now2 : string) (d : Dashboard) :
  isBlank (currentQuery (state d)) = false ->
  timers d = [] ->
  state (timeout now2 (handleQuerySubmit now1 d))
  = {| queries :=
         (queries (state d)
          ++ [ {| query := currentQuery (state d);
                  timestamp := now2;
                  results := generateMockResults (currentQuery (state d)) |} ])%list;
       currentQuery := "";
       currentResults := Some (generateMockResults (currentQuery (state d)));
       isProcessing := false;
       error := None;
       suggestionMode := suggestionMode (state d) |}
  /\ timers (timeout now2 (handleQuerySubmit now1 d)) = [].
Proof.
  intros Hb Ht. rewrite (handleQuerySubmit_accepts now1 d Hb).
  unfold timeout. cbn [timers]. rewrite Ht. split; reflexivity.
Qed.

Lemma submit_then_resolve_witness :
  isBlank (currentQuery (state typedAgain)) = false
  /\ timers typedAgain = []
  /\ state (timeout "10:00:06" (handleQuerySubmit "10:00:05" typedAgain))
     = {| queries :=
            (queries (state typedAgain)
             ++ [ {| query := currentQuery (state typedAgain);
                     timestamp := "10:00:06";
                     results := generateMockResults (currentQuery (state typedAgain)) |} ])%list;
          currentQuery := "";
          currentResults := Some (generateMockResults (currentQuery (state typedAgain)));
          isProcessing := false;
          error := None;
          suggestionMode := suggestionMode (state typedAgain) |}
  /\ timers (timeout "10:00:06" (handleQuerySubmit "10:00:05" typedAgain)) = [].
Proof.
  split; [reflexivity |]. split; [reflexivity |].
  apply (submit_then_resolve "10:00:05" "10:00:06" typedAgain); reflexivity.
Defined.

(** X10: a second submit while the first is pending is not held back:
    both callbacks append an entry, and the second entry carries the
    empty text that the first callback left in the input. *)
Theorem double_submit_two_entries (now1 now2 now3 now4 : string) (d : Dashboard) :
  isBlank (currentQuery (state d)) = false ->
  timers d = [] ->
  queries (state (timeout now4 (timeout now3
             (handleQuerySubmit now2 (handleQuerySubmit now1 d)))))
  = (queries (state d)
     ++ [ {| query := currentQuery (state d);
             timestamp := now3;
             results := generateMockResults (currentQuery (state d)) |};
          {| query := "";
             timestamp := now4;
             results := generateMockResults (currentQuery (state d)) |} ])%list.
Proof.
  intros Hb Ht. rewrite (handleQuerySubmit_accepts now1 d Hb).
  rewrite handleQuerySubmit_accepts by exact Hb.
  unfold timeout. cbn [timers state]. rewrite Ht.
  cbn [app timers state queryReducer queries currentQuery dispatch].
  now rewrite <- app_assoc.
Qed.

Lemma double_submit_two_entries_witness :
  isBlank (currentQuery (state typedRevenue)) = false
  /\ timers typedRevenue = []
  /\ queries (state (timeout "10:00:04" (timeout "10:00:03"
         (handleQuerySubmit "10:00:02" (handleQuerySubmit "10:00:01" typedRevenue)))))
     = (queries (state typedRevenue)
        ++ [ {| query := currentQuery (state typedRevenue);
                timestamp := "10:00:03";
                results := generateMockResults (currentQuery (state typedRevenue)) |};
             {| query := "";
                timestamp := "10:00:04";
                results := generateMockResults (currentQuery (state typedRevenue)) |} ])%list.
Proof.
  split; [reflexivity |]. split; [reflexivity |].
  apply (double_submit_two_entries "10:00:01" "10:00:02" "10:00:03" "10:00:04"
           typedRevenue); reflexivity.
Defined.

(** X11: Clear History does not cancel a pending submission: its
    callback still appends, and the history then holds that one
    entry. *)
Theorem clear_keeps_pending (now1 now2 : string) (d : Dashboard)
    (r : Results) (rest : list Results) :
  timers d = r :: rest ->
  queries (state (timeout now2 (clearHistory now1 d)))
  = [ {| query := currentQuery (state d); timestamp := now2; results := r |} ]
  /\ currentResults (state (timeout now2 (clearHistory now1 d))) = Some r
  /\ timers (timeout now2 (clearHistory now1 d)) = rest.
Proof.
  intros Ht. unfold timeout, clearHistory. cbn [timers dispatch]. rewrite Ht.
  repeat split.
Qed.

Lemma clear_keeps_pending_witness :
  timers (after submitted) = [generateMockResults "revenue"]
  /\ queries (state (timeout "10:00:03" (clearHistory "10:00:02" (after submitted))))
     = [ {| query := "revenue"; timestamp := "10:00:03";
            results := generateMockResults "revenue" |} ]
  /\ currentResults (state (timeout "10:00:03" (clearHistory "10:00:02" (after submitted))))
     = Some (generateMockResults "revenue")
  /\ timers (timeout "10:00:03" (clearHistory "10:00:02" (after submitted))) = [].
Proof.
  split; [reflexivity |].
  apply (clear_keeps_pending "10:00:02" "10:00:03" (after submitted)
           (generateMockResults "revenue") []).
  reflexivity.
Defined.

(** ** The suggestion scorer: what the list holds *)

Lemma includes_trans (a b c : string) :
  includes a b = true -> includes b c = true -> includes a c = true.
Proof.
  rewrite !includes_spec. intros (p1 & q1 & ->) (p2 & q2 & ->).
  exists (p1 ++ p2), (q2 ++ q1).
  now rewrite !string_app_assoc.
Qed.

(** Every piece of [split_ws] is a part of the string. *)
Lemma split_ws_from_parts (s : string) (inws : bool) (cur : string) :
  (inws = true -> cur = "") ->
  Forall (fun w => includes (cur ++ s) w = true) (split_ws_from inws cur s).
Proof.
  revert inws cur. induction s as [| c s IH]; intros inws cur Hcur; cbn [split_ws_from].
  - constructor; [| constructor]. apply includes_spec.
    exists "", "". cbn. now rewrite !string_app_nil_r.
  - destruct (isWhiteSpace c).
    + assert (Hrest : Forall (fun w => includes (cur ++ String c s) w = true)
                             (split_ws_from true "" s)).
      { eapply Forall_impl; [| apply (IH true ""); reflexivity].
        cbn. intros w Hw. apply includes_spec in Hw. destruct Hw as (p & q & ->).
        apply includes_spec. exists (cur ++ String c p), q.
        rewrite string_app_assoc. reflexivity. }
      destruct inws.
      * rewrite (Hcur eq_refl) in *. exact Hrest.
      * constructor; [| exact Hrest].
        apply includes_spec. exists "", (String c s). reflexivity.
    + eapply Forall_impl; [| apply (IH false (cur ++ String c "")); discriminate].
      cbn. intros w Hw. rewrite string_app_assoc in Hw. exact Hw.
Qed.

Lemma keywords_in_query (value keyword : string) :
  In keyword (keywords value) -> includes (toLowerCase value) keyword = true.
Proof.
  unfold keywords. intros H. apply filter_In in H. destruct H as [H _].
  assert (P := split_ws_from_parts (toLowerCase value) false "" ltac:(discriminate)).
  rewrite Forall_forall in P. exact (P keyword H).
Qed.

Lemma phraseScore_bound (value phrase : string) :
  phraseScore value phrase <= 10 + 5 * Z.of_nat (List.length (keywords value)).
Proof.
  unfold phraseScore.
  assert (H := filter_length_le
                 (fun keyword => includes (toLowerCase phrase) keyword) (keywords value)).
  destruct (includes (toLowerCase phrase) (toLowerCase value)); lia.
Qed.

(** X12: a phrase that contains the whole query, case ignored, also
    contains each of its keywords, so it gets the highest score there
    is, 10 + 5 per keyword, and no phrase outranks it. *)
Theorem whole_query_match_is_top (value phrase other : string) :
  includes (toLowerCase phrase) (toLowerCase value) = true ->
  phraseScore value phrase = 10 + 5 * Z.of_nat (List.length (keywords value))
  /\ phraseScore value other <= phraseScore value phrase.
Proof.
  intros Hw.
  assert (Hs : phraseScore value phrase
               = 10 + 5 * Z.of_nat (List.length (keywords value))).
  { unfold phraseScore. rewrite Hw.
    replace (filter (fun keyword => includes (toLowerCase phrase) keyword) (keywords value))
      with (keywords value); [reflexivity |].
    symmetry. apply forallb_filter_id. apply forallb_forall.
    intros keyword Hk. apply (includes_trans _ (toLowerCase value)); [exact Hw |].
    now apply keywords_in_query. }
  split; [exact Hs |]. rewrite Hs. apply phraseScore_bound.
Qed.

Lemma whole_query_match_is_top_witness :
  includes (toLowerCase "Year-over-year revenue growth analysis")
           (toLowerCase "Revenue Growth") = true
  /\ phraseScore "Revenue Growth" "Year-over-year revenue growth analysis"
     = 10 + 5 * Z.of_nat (List.length (keywords "Revenue Growth"))
  /\ phraseScore "Revenue Growth" "Product revenue trends"
     <= phraseScore "Revenue Growth" "Year-over-year revenue growth analysis".
Proof.
  split; [reflexivity |].
  apply (whole_query_match_is_top "Revenue Growth"
           "Year-over-year revenue growth analysis" "Product revenue trends").
  reflexivity.
Defined.

Lemma AI_SUGGESTIONS_NoDup : NoDup AI_SUGGESTIONS.
Proof.
  unfold AI_SUGGESTIONS.
  repeat (constructor; [cbn [In]; intuition discriminate |]).
  constructor.
Qed.

Lemma In_firstn {A : Type} (n : nat) (l : list A) (x : A) :
  In x (firstn n l) -> In x l.
Proof.
  intros H. rewrite <- (firstn_skipn n l). apply in_or_app. now left.
Qed.

Lemma sorted_app_le {A : Type} (key : A -> Z) (l1 l2 : list A) (a b : A) :
  StronglySorted (fun x y => key y <= key x) (l1 ++ l2) ->
  In a l1 -> In b l2 -> key b <= key a.
Proof.
  induction l1 as [| x l1 IH]; intros Hs Ha Hb; [now contradiction Ha |].
  cbn [app] in Hs. apply StronglySorted_inv in Hs. destruct Hs as [Hs Hx].
  destruct Ha as [-> | Ha]; [| now apply IH].
  rewrite Forall_forall in Hx. apply Hx. apply in_or_app. now right.
Qed.

(** X13: the phrases suggested are at most 7, all different, all
    taken from [AI_SUGGESTIONS], and each matches the query: its score
    is positive. *)
Theorem filteredSuggestions_sound (value : string) :
  (List.length (filteredSuggestions value) <= 7)%nat
  /\ NoDup (filteredSuggestions value)
  /\ forall p, In p (filteredSuggestions value) ->
       In p AI_SUGGESTIONS /\ 0 < phraseScore value p.
Proof.
  rewrite filteredSuggestions_sorted.
  set (candidates := filter (fun p => 0 <? phraseScore value p) AI_SUGGESTIONS).
  set (ranked := sort (fun p q => phraseScore value q - phraseScore value p) candidates).
  assert (Hperm : Permutation ranked candidates)
    by apply (sort_perm (phraseScore value)).
  split; [apply firstn_le_length |]. split.
  - apply (NoDup_app_remove_r _ (skipn 7 ranked)). rewrite firstn_skipn.
    apply (Permutation_NoDup (Permutation_sym Hperm)).
    apply NoDup_filter. exact AI_SUGGESTIONS_NoDup.
  - intros p Hp. apply In_firstn in Hp.
    apply (Permutation_in _ Hperm) in Hp. apply filter_In in Hp.
    destruct Hp as [Hin Hpos]. apply Z.ltb_lt in Hpos. now split.
Qed.

(** X14: the cut to 7 drops the weakest: a phrase of the list that is
    not suggested scores no more than any phrase that is. *)
Theorem filteredSuggestions_best (value p q : string) :
  In p AI_SUGGESTIONS ->
  ~ In p (filteredSuggestions value) ->
  In q (filteredSuggestions value) ->
  phraseScore value p <= phraseScore value q.
Proof.
  rewrite filteredSuggestions_sorted.
  set (candidates := filter (fun p => 0 <? phraseScore value p) AI_SUGGESTIONS).
  set (ranked := sort (fun p q => phraseScore value q - phraseScore value p) candidates).
  intros Hp Hout Hq.
  assert (Hperm : Permutation ranked candidates)
    by apply (sort_perm (phraseScore value)).
  assert (Hqpos : 0 < phraseScore value q).
  { apply In_firstn in Hq. apply (Permutation_in _ Hperm) in Hq.
    apply filter_In in Hq. now apply Z.ltb_lt. }
  destruct (0 <? phraseScore value p) eqn:Epos;
    [| apply Z.ltb_ge in Epos; lia].
  assert (Hin : In p ranked).
  { apply (Permutation_in _ (Permutation_sym Hperm)). apply filter_In. now split. }
  rewrite <- (firstn_skipn 7 ranked) in Hin. apply in_app_or in Hin.
  destruct Hin as [Hin | Hin]; [now contradiction Hout |].
  apply (sorted_app_le (phraseScore value) (firstn 7 ranked) (skipn 7 ranked));
    [| exact Hq | exact Hin].
  rewrite firstn_skipn. apply (sort_sorted (phraseScore value)).
Qed.

Lemma filteredSuggestions_best_witness :
  In "Customer retention rates" AI_SUGGESTIONS
  /\ ~ In "Customer retention rates" (filteredSuggestions "customer rev")
  /\ In "Customer lifetime value analysis" (filteredSuggestions "customer rev")
  /\ phraseScore "customer rev" "Customer retention rates"
     <= phraseScore "customer rev" "Customer lifetime value analysis".
Proof.
  assert (Hin : In "Customer retention rates" AI_SUGGESTIONS)
    by (vm_compute; tauto).
  assert (Hout : ~ In "Customer retention rates" (filteredSuggestions "customer rev"))
    by (vm_compute; intuition discriminate).
  assert (Hq : In "Customer lifetime value analysis" (filteredSuggestions "customer rev"))
    by (vm_compute; tauto).
  split; [exact Hin |]. split; [exact Hout |]. split; [exact Hq |].
  exact (filteredSuggestions_best "customer rev" "Customer retention rates"
           "Customer lifetime value analysis" Hin Hout Hq).
Defined.

(** ** The growth rate: the sentinels *)

Lemma headDigit_digits_of (n : Z) : headDigit (digits_of n) = true.
Proof.
  unfold digits_of, NilZero.string_of_uint.
  destruct (N.to_uint (Z.to_N n)); reflexivity.
Qed.

Lemma headDigit_app (a b : string) : headDigit a = true -> headDigit (a ++ b) = true.
Proof. destruct a; [discriminate | trivial]. Qed.

Lemma headDigit_substring (j : nat) (a : string) :
  headDigit a = true -> (0 < j)%nat -> headDigit (substring 0 j a) = true.
Proof.
  destruct a; [discriminate |]. destruct j; [lia | trivial].
Qed.

Lemma length_string_app (a b : string) :
  String.length (a ++ b) = (String.length a + String.length b)%nat.
Proof. induction a as [| c a IH]; simpl; [reflexivity | now rewrite IH]. Qed.

Lemma length_repeat0 (n : nat) : String.length (repeat0 n) = n.
Proof. induction n as [| n IH]; simpl; [reflexivity | now rewrite IH]. Qed.

Lemma headDigit_toFixed_digits (pq : Z * Z) : headDigit (toFixed_digits 2 pq) = true.
Proof.
  unfold toFixed_digits. destruct (scale10 pq (Z.of_nat 2)) as [a b].
  set (m := digits_of ((2 * a + b) / (2 * b))).
  assert (Hm : headDigit m = true) by apply headDigit_digits_of.
  destruct (Nat.leb (String.length m) 2) eqn:E.
  - apply Nat.leb_le in E. apply headDigit_app, headDigit_substring.
    + destruct (2 + 1 - String.length m)%nat eqn:K; [lia | reflexivity].
    + rewrite length_string_app, length_repeat0. lia.
  - apply Nat.leb_gt in E. apply headDigit_app, headDigit_substring; [exact Hm | lia].
Qed.

Lemma headDigit_toString_pos (m : positive) (e : Z) :
  headDigit (toString_pos m e) = true.
Proof.
  unfold toString_pos.
  destruct (shortest 20 (S754_finite false m e) (ratio_of m e) (decimal_exponent m e) 1)
    as [[s n] k].
  assert (Hd : headDigit (digits_of s) = true) by apply headDigit_digits_of.
  destruct ((k <=? n) && (n <=? 21)); [now apply headDigit_app |].
  destruct ((0 <? n) && (n <=? 21)) eqn:E.
  - apply andb_true_iff in E. destruct E as [E _]. apply Z.ltb_lt in E.
    apply headDigit_app, headDigit_substring; [exact Hd | lia].
  - destruct ((-6 <? n) && (n <=? 0)); [reflexivity |].
    destruct (k =? 1); [now apply headDigit_app |].
    apply headDigit_app, headDigit_substring; [exact Hd | lia].
Qed.

(** [toFixed] yields neither of the two sentinels. *)
Lemma toFixed_not_sentinel (x : Number) :
  toFixed x 2 <> "N/A" /\ toFixed x 2 <> "Unavailable".
Proof.
  assert (G : forall t, headDigit t = true -> t <> "N/A" /\ t <> "Unavailable")
    by (intros t Ht; split; intros ->; discriminate Ht).
  destruct x as [s | s | | s m e]; cbn [toFixed toString].
  - apply G, headDigit_toFixed_digits.
  - destruct s; split; discriminate.
  - split; discriminate.
  - destruct (ratio_of m e) as [p q]. destruct (10 ^ 21 * q <=? p).
    + cbn [toString]. destruct s; [split; discriminate |].
      apply G, headDigit_toString_pos.
    + destruct s; [split; discriminate |].
      apply G, headDigit_toFixed_digits.
Qed.

Lemma nth_last_row {A : Type} (x : A) (middle : list A) (y d : A) :
  nth (List.length (x :: middle ++ [y]) - 1) (x :: middle ++ [y]) d = y.
Proof.
  cbn [List.length]. rewrite length_app. cbn [List.length].
  replace (S (List.length middle + 1) - 1)%nat with (S (List.length middle)) by lia.
  cbn [nth]. apply nth_middle.
Qed.

(** X15: for rows that are null or carry a Number revenue, "N/A"
    comes out exactly for fewer than two rows, and "Unavailable"
    exactly when there are two rows or more and the first or the last
    of them is null: no arithmetic on Numbers leads to either. *)
Theorem calculateGrowthRate_sentinels (rows : list (option DataPoint)) :
  (calculateGrowthRate (Some rows) = "N/A" <-> (List.length rows < 2)%nat)
  /\ (calculateGrowthRate (Some rows) = "Unavailable" <->
      (2 <= List.length rows)%nat
      /\ (nth 0 rows None = None \/ nth (List.length rows - 1) rows None = None)).
Proof.
  unfold calculateGrowthRate.
  destruct (List.length rows <? 2)%nat eqn:E.
  - apply Nat.ltb_lt in E. split; split; try discriminate; try tauto; lia.
  - apply Nat.ltb_ge in E.
    destruct (nth 0 rows None) as [first |];
      destruct (nth (List.length rows - 1) rows None) as [last |].
    + destruct (toFixed_not_sentinel
                  (mul (div (sub (revenue last) (revenue first)) (revenue first)) (lit 100)))
        as [H1 H2].
      split; split; intros H; try tauto; try lia.
      destruct H as [_ [H | H]]; discriminate H.
    + split; split; intros H; try discriminate H; try lia; tauto.
    + split; split; intros H; try discriminate H; try lia; tauto.
    + split; split; intros H; try discriminate H; try lia; tauto.
Qed.

(** X16: only the first and the last row count: the rows between them
    do not change the result. *)
Theorem calculateGrowthRate_ends_only (first last : option DataPoint)
    (middle : list (option DataPoint)) :
  calculateGrowthRate (Some (first :: middle ++ [last]))
  = calculateGrowthRate (Some [first; last]).
Proof.
  unfold calculateGrowthRate.
  rewrite (nth_last_row first middle last None).
  assert (E : (List.length (first :: middle ++ [last]) <? 2)%nat = false).
  { apply Nat.ltb_ge. cbn [List.length]. rewrite length_app. cbn [List.length]. lia. }
  rewrite E. reflexivity.
Qed.

Lemma sub_self_finite (s : bool) (m : positive) (e : Z) :
  sub (S754_finite s m e) (S754_finite s m e) = S754_zero false.
Proof.
  unfold sub, SFsub. rewrite Z.sub_diag. reflexivity.
Qed.

(** X17: when the last revenue equals the first, finite and not zero,
    the growth is "0.00", also for a negative revenue. *)
Theorem calculateGrowthRate_unchanged (rows : list (option DataPoint))
    (first last : DataPoint) (s : bool) (m : positive) (e : Z) :
  (2 <= List.length rows)%nat ->
  nth 0 rows None = Some first ->
  nth (List.length rows - 1) rows None = Some last ->
  revenue first = S754_finite s m e ->
  revenue last = revenue first ->
  calculateGrowthRate (Some rows) = "0.00".
Proof.
  intros H Hf Hl Hr He.
  rewrite (calculateGrowthRate_rows rows first last H Hf Hl), He, Hr.
  rewrite sub_self_finite. destruct s; reflexivity.
Qed.

Lemma calculateGrowthRate_unchanged_witness :
  (2 <= List.length (twoRows (lit 450000) (lit 450000)))%nat
  /\ nth 0 (twoRows (lit 450000) (lit 450000)) None
     = Some {| name := "Q1 2023"; revenue := lit 450000;
               customers := lit 1200; products := lit 50 |}
  /\ calculateGrowthRate (Some (twoRows (lit 450000) (lit 450000))) = "0.00".
Proof.
  split; [cbn; lia |]. split; [reflexivity |].
  apply (calculateGrowthRate_unchanged (twoRows (lit 450000) (lit 450000))
           {| name := "Q1 2023"; revenue := lit 450000;
              customers := lit 1200; products := lit 50 |}
           {| name := "Q2 2023"; revenue := lit 450000;
              customers := lit 1350; products := lit 55 |}
           false 7730941132800000 (-34));
    [cbn; lia | reflexivity ..].
Defined.

Lemma zero_first_revenue_not_caught_witness :
  (2 <= List.length zeroFirst)%nat
  /\ revenue {| name := "Q1 2023"; revenue := lit 0;
                customers := lit 0; products := lit 0 |} = S754_zero false
  /\ In (calculateGrowthRate (Some zeroFirst)) ["Infinity"; "-Infinity"; "NaN"].
Proof.
  split; [cbn; lia |]. split; [reflexivity |].
  apply (zero_first_revenue_not_caught zeroFirst
           {| name := "Q1 2023"; revenue := lit 0; customers := lit 0; products := lit 0 |}
           {| name := "Q2 2023"; revenue := lit 520000;
              customers := lit 1350; products := lit 55 |}
           false);
    [cbn; lia | reflexivity ..].
Defined.

(** ** The insight rules: what the synthesizer can say *)

(** X20: when the growth is not a number ("N/A", "Unavailable",
    "NaN"), a query about revenue is told "Revenue decreased by
    NaN%". *)
Theorem generateInsights_growth_not_a_number (query growth : string)
    (totalCustomers : Number) :
  includes query "revenue" = true ->
  In growth ["N/A"; "Unavailable"; "NaN"] ->
  generateInsights query
    {| in_averageGrowth := growth; in_totalCustomers := totalCustomers |}
  = "Revenue decreased by NaN%".
Proof.
  intros Hq Hg. unfold generateInsights, insightRules. cbn [find condition].
  rewrite Hq. cbn [insight in_averageGrowth].
  destruct Hg as [<- | [<- | [<- | []]]]; reflexivity.
Qed.

Lemma generateInsights_growth_not_a_number_witness :
  includes "Top revenue drivers" "revenue" = true
  /\ In "N/A" ["N/A"; "Unavailable"; "NaN"]
  /\ generateInsights "Top revenue drivers"
       {| in_averageGrowth := "N/A"; in_totalCustomers := lit 5700 |}
     = "Revenue decreased by NaN%".
Proof.
  split; [reflexivity |]. split; [left; reflexivity |].
  apply (generateInsights_growth_not_a_number "Top revenue drivers" "N/A" (lit 5700));
    [reflexivity | left; reflexivity].
Defined.

(** X21: the synthesizer emits exactly one insight, chosen by the first
    of "revenue", "customer", "product" found in the query as typed;
    with the fixed rows the sentences read "increased by 51.11%" and
    "strong": "decreased" and "moderate" never come out. *)
Theorem generateMockResults_insights (query : string) :
  insights (generateMockResults query)
  = [ if includes query "revenue" then "Revenue increased by 51.11%"
      else if includes query "customer" then "Customer base shows strong growth"
      else if includes query "product" then
        "Product portfolio demonstrates consistent performance"
      else "General performance remains stable" ].
Proof.
  unfold generateMockResults. cbn [insights].
  unfold generateInsights, insightRules. cbn [find condition].
  destruct (includes query "revenue");
    [| destruct (includes query "customer");
       [| destruct (includes query "product")]];
    reflexivity.
Qed.

(** ** Witnesses for the reducer lemmas *)

Lemma suggestionMode_nonempty_witness :
  currentQuery (reduce [("10:00:00", SET_CURRENT_QUERY "/rev");
                        ("10:00:01", SUBMIT_QUERY)] initialState) <> ""
  /\ suggestionMode (reduce [("10:00:00", SET_CURRENT_QUERY "/rev");
                            ("10:00:01", SUBMIT_QUERY)] initialState)
     = startsWith (currentQuery (reduce [("10:00:00", SET_CURRENT_QUERY "/rev");
                                         ("10:00:01", SUBMIT_QUERY)] initialState)) "/".
Proof.
  split; [discriminate |].
  apply (suggestionMode_nonempty [("10:00:00", SET_CURRENT_QUERY "/rev");
                                  ("10:00:01", SUBMIT_QUERY)]).
  discriminate.
Defined.

Lemma edited_while_pending_witness :
  isBlank (currentQuery (state typedRevenue)) = false
  /\ timers typedRevenue = []
  /\ queries (state (timeout "10:00:03"
        (handleQueryChange "10:00:02" "customers"
           (handleQuerySubmit "10:00:01" typedRevenue))))
     = (queries (state typedRevenue)
        ++ [ {| query := "customers";
                timestamp := "10:00:03";
                results := generateMockResults (currentQuery (state typedRevenue)) |} ])%list.
Proof.
  split; [reflexivity |]. split; [reflexivity |].
  apply (edited_while_pending "10:00:01" "10:00:02" "10:00:03" "customers" typedRevenue);
    reflexivity.
Defined.

(** ** The charts and the mousedown *)

(** X24: in the pie chart every row has a cell with a colour of the
    palette, the colour at the row's index modulo 10: no cell is left
    without a fill, however many rows there are. *)
Theorem pie_cells_coloured (s : State) (r : Results) (i : nat) :
  currentResults s = Some r ->
  (i < List.length (data r))%nat ->
  exists cells colour,
    renderVisualization "pie" s = Some (PieChart (data r) cells)
    /\ List.length cells = List.length (data r)
    /\ nth_error cells i = Some (Some colour)
    /\ nth_error COLOR_PALETTE (i mod 10) = Some colour.
Proof.
  intros Hr Hi. unfold renderVisualization. rewrite Hr.
  change (String.eqb "pie" "bar") with false.
  change (String.eqb "pie" "pie") with true. cbn iota.
  assert (Hc : (i mod 10 < List.length COLOR_PALETTE)%nat)
    by (apply Nat.mod_upper_bound; discriminate).
  destruct (nth_error COLOR_PALETTE (i mod 10)) as [colour |] eqn:E;
    [| apply nth_error_Some in Hc; now contradiction Hc].
  eexists _, colour. split; [reflexivity |]. split; [| split; [| reflexivity]].
  - now rewrite length_map, length_seq.
  - rewrite nth_error_map, nth_error_seq.
    apply Nat.ltb_lt in Hi. rewrite Hi. cbn [option_map Nat.add].
    change (List.length COLOR_PALETTE) with 10%nat. now rewrite E.
Qed.

Lemma pie_cells_coloured_witness :
  currentResults (showing (generateMockResults "revenue"))
  = Some (generateMockResults "revenue")
  /\ (3 < List.length (data (generateMockResults "revenue")))%nat
  /\ exists cells colour,
       renderVisualization "pie" (showing (generateMockResults "revenue"))
       = Some (PieChart (data (generateMockResults "revenue")) cells)
       /\ List.length cells = List.length (data (generateMockResults "revenue"))
       /\ nth_error cells 3 = Some (Some colour)
       /\ nth_error COLOR_PALETTE (3 mod 10) = Some colour.
Proof.
  split; [reflexivity |]. split; [cbn; lia |].
  apply (pie_cells_coloured (showing (generateMockResults "revenue"))
           (generateMockResults "revenue") 3); [reflexivity | cbn; lia].
Defined.

(** X25: after a mousedown outside the input and the list the page
    holds no suggestion, and the session state and the pending
    callbacks are untouched. *)
Theorem click_outside_clears (gs : list (string * Gesture)) (d : Dashboard) :
  uiRun gs initialDashboard = Some d ->
  suggestions (handleClickOutside true d) = []
  /\ state (handleClickOutside true d) = state d
  /\ timers (handleClickOutside true d) = timers d.
Proof.
  intros Hrun. assert (Hshown := uiRun_shown gs d Hrun).
  unfold shownWhenPresent in Hshown.
  unfold handleClickOutside, suggestionContainerShown.
  destruct (suggestions d) as [| s0 l] eqn:El.
  - cbn [List.length Nat.ltb Nat.leb]. rewrite andb_false_r. cbn [andb].
    repeat split. exact El.
  - rewrite Hshown by discriminate. repeat split.
Qed.

Lemma click_outside_clears_witness :
  uiRun pickCommand initialDashboard = Some (after pickCommand)
  /\ suggestions (after pickCommand) <> []
  /\ suggestions (handleClickOutside true (after pickCommand)) = []
  /\ state (handleClickOutside true (after pickCommand)) = state (after pickCommand)
  /\ timers (handleClickOutside true (after pickCommand)) = timers (after pickCommand).
Proof.
  split; [reflexivity |]. split; [vm_compute; discriminate |].
  apply (click_outside_clears pickCommand (after pickCommand)). reflexivity.
Defined.

(** ** The growth rate, case by case *)

(** C2 fails as stated: with a first revenue of 0 the result is not
    "Unavailable". *)
Lemma zero_first_is_not_unavailable :
  map (option_map revenue) zeroFirst = [Some (lit 0); Some (lit 520000)]
  /\ calculateGrowthRate (Some zeroFirst) <> "Unavailable".
Proof.
  split; [reflexivity |]. vm_compute. discriminate.
Qed.

(** C2, as the code has it: fewer than two rows give "N/A"; two rows
    or more with the first and the last present give
    ((last - first) / first * 100).toFixed(2), and when the first
    revenue is 0 that string is "Infinity", "-Infinity" or "NaN": the
    division does not throw, so "Unavailable" does not come out. *)
Theorem calculateGrowthRate_cases (rows : list (option DataPoint)) :
  ((List.length rows < 2)%nat -> calculateGrowthRate (Some rows) = "N/A")
  /\ (forall first last : DataPoint,
        (2 <= List.length rows)%nat ->
        nth 0 rows None = Some first ->
        nth (List.length rows - 1) rows None = Some last ->
        calculateGrowthRate (Some rows)
        = toFixed (mul (div (sub (revenue last) (revenue first)) (revenue first))
                       (lit 100)) 2
        /\ (forall s : bool, revenue first = S754_zero s ->
            In (calculateGrowthRate (Some rows)) ["Infinity"; "-Infinity"; "NaN"]
            /\ calculateGrowthRate (Some rows) <> "Unavailable")).
Proof.
  split; [apply calculateGrowthRate_short |].
  intros first last H Hf Hl.
  rewrite (calculateGrowthRate_rows rows first last H Hf Hl).
  split; [reflexivity |].
  intros s Hz. rewrite Hz.
  destruct (revenue last) as [sl | sl | | sl m e]; destruct s; try destruct sl;
    vm_compute; (split; [tauto | discriminate]).
Qed.

Lemma calculateGrowthRate_cases_witness :
  calculateGrowthRate (Some []) = "N/A"
  /\ calculateGrowthRate (Some (map Some baseData))
     = toFixed (mul (div (sub (lit 680000) (lit 450000)) (lit 450000)) (lit 100)) 2
  /\ In (calculateGrowthRate (Some zeroFirst)) ["Infinity"; "-Infinity"; "NaN"]
  /\ calculateGrowthRate (Some zeroFirst) <> "Unavailable".
Proof.
  split; [apply (proj1 (calculateGrowthRate_cases [])); cbn; lia |].
  split.
  - apply (proj2 (calculateGrowthRate_cases (map Some baseData))
             {| name := "Q1 2023"; revenue := lit 450000;
                customers := lit 1200; products := lit 50 |}
             {| name := "Q4 2023"; revenue := lit 680000;
                customers := lit 1650; products := lit 65 |});
      [cbn; lia | reflexivity | reflexivity].
  - assert (H : (2 <= List.length zeroFirst)%nat) by (cbn; lia).
    apply (proj2 (proj2 (calculateGrowthRate_cases zeroFirst)
                    {| name := "Q1 2023"; revenue := lit 0;
                       customers := lit 0; products := lit 0 |}
                    {| name := "Q2 2023"; revenue := lit 520000;
                       customers := lit 1350; products := lit 55 |}
                    H eq_refl eq_refl)
                 false).
    reflexivity.
Defined.

(** ** The command flag and the last text set *)



